(** * Sample data generator: a shallow embedding of [main.py]

    The program builds eight small relational tables in memory (shipping
    methods, couriers, customers, categories, sub-categories, products,
    orders, order items) and hands each of them to a CSV sink.

    Modelling choices.
    - Python [int] is [Z]; a [dict] with string keys, whose insertion order
      decides the CSV header, is an association list [row].
    - The [float] prices of the catalogue are literals with two decimals
      that are only carried to the sink, never computed on: they are kept
      exactly, as a number of hundredths.
    - A naive [datetime] is the number of microseconds since
      0001-01-01T00:00:00; adding a [timedelta] raises [OverflowError]
      outside the years 1..9999, as CPython does.
    - The output directory is a finite map from file names to written
      tables, absent ([None]) when the directory does not exist.
    - Exceptions do not roll the state back: a computation returns its
      outcome together with the world it leaves behind.
    - The process-wide random source of the faker library is an entropy
      tape of integers; each sampling primitive consumes one cell.
    - [logger.info] calls are left out; in their place the world carries a
      ghost trace of the generator calls with the arguments they receive. *)

From Stdlib Require Import ZArith String List Lia.
From stdpp Require Import base option list strings gmap.

Open Scope string_scope.
Open Scope list_scope.
Open Scope Z_scope.

(** ** Values, rows and files *)

Inductive value : Type :=
  | VInt (z : Z)
  | VStr (s : string)
  | VFloat (hundredths : Z)
  | VDatetime (us : Z).

Abbreviation row := (list (string * value)).

Definition keys (r : row) : list string := map fst r.

Fixpoint get (k : string) (r : row) : option value :=
  match r with
  | [] => None
  | (k', v) :: r' => if String.eqb k k' then Some v else get k r'
  end.

(** What [csv.DictWriter] leaves in a file: the header and one list of
    cells per record. *)
Record csv_file : Type := CsvFile {
  header : list string;
  lines : list (list value)
}.

(** [@dataclass class Product] *)
Record Product : Type := mkProduct {
  name : string;
  price : Z
}.

(** ** Exceptions, the world, the monad *)

Inductive exn : Type :=
  | ValueError
  | OverflowError
  | FileNotFoundError
  | FileExistsError.

Inductive outcome (A : Type) : Type :=
  | Ret (a : A)
  | Raise (e : exn).
Arguments Ret {A} a.
Arguments Raise {A} e.

Inductive call : Type :=
  | generate_shipping_methods_call
  | generate_couriers_call
  | generate_customers_call (number_of_customers : Z)
  | generate_products_call
  | generate_orders_call
      (num_customers num_products num_shipping_methods num_couriers
       num_orders max_order_items start_datetime end_datetime
       max_quantity : Z).

(** A call is entered with its arguments and left with the integer it
    returns, [None] standing for Python's [None]. *)
Inductive event : Type :=
  | Enter (c : call)
  | Leave (c : call) (result : option Z).

Record world : Type := World {
  target : option (gmap string csv_file);
  entropy : list Z;
  cities : list string;
  countries : list string;
  trace : list event
}.

Definition M (A : Type) : Type := world -> outcome A * world.

Definition ret {A} (a : A) : M A := fun w => (Ret a, w).

Definition raise {A} (e : exn) : M A := fun w => (Raise e, w).

Definition bind {A B} (c : M A) (k : A -> M B) : M B :=
  fun w =>
    match c w with
    | (Ret a, w') => k a w'
    | (Raise e, w') => (Raise e, w')
    end.

Notation "x <~ c ;; k" := (bind c (fun x => k))
  (at level 100, c at next level, right associativity).
Notation "c ;;; k" := (bind c (fun _ => k))
  (at level 100, right associativity).

Definition with_target (t : option (gmap string csv_file)) (w : world) : world :=
  World t (entropy w) (cities w) (countries w) (trace w).

Definition with_entropy (e : list Z) (w : world) : world :=
  World (target w) e (cities w) (countries w) (trace w).

Definition log (e : event) (w : world) : world :=
  World (target w) (entropy w) (cities w) (countries w) (trace w ++ [e]).

Definition record (e : event) : M unit := fun w => (Ret tt, log e w).

(** A generator call: entered with its arguments, left on normal return. *)
Definition traced {A} (c : call) (result : A -> option Z) (body : M A) : M A :=
  record (Enter c) ;;; a <~ body ;; record (Leave c (result a)) ;;; ret a.

Definition none (_ : unit) : option Z := None.

(** ** The random source *)

Definition draw : M Z :=
  fun w =>
    match entropy w with
    | [] => (Ret 0, w)
    | x :: e => (Ret x, with_entropy e w)
    end.

(** [fake.random_int(lo, hi)] is [random.randrange(lo, hi + 1)]: a value of
    [lo..hi], and [ValueError] on an empty range. *)
Definition random_int (lo hi : Z) : M Z :=
  if hi <? lo then raise ValueError
  else x <~ draw ;; ret (lo + x mod (hi - lo + 1)).

(** [fake.date_time_between(a, b)]: some instant between the two bounds. *)
Definition date_time_between (a b : Z) : M Z :=
  x <~ draw ;; ret (Z.min a b + x mod (Z.max a b - Z.min a b + 1)).

Definition random_element (pool : list string) : M string :=
  x <~ draw ;; ret (nth (Z.to_nat (x mod Z.of_nat (length pool))) pool "").

Definition city : M string := fun w => random_element (cities w) w.

Definition country : M string := fun w => random_element (countries w) w.

(** ** Dates *)

Definition is_leap (y : Z) : bool :=
  (y mod 4 =? 0) && (negb (y mod 100 =? 0) || (y mod 400 =? 0)).

Definition days_before_year (y : Z) : Z :=
  let y' := y - 1 in y' * 365 + y' / 4 - y' / 100 + y' / 400.

Definition days_in_month (y m : Z) : Z :=
  if m =? 2 then (if is_leap y then 29 else 28)
  else if (m =? 4) || (m =? 6) || (m =? 9) || (m =? 11) then 30 else 31.

Definition days_before_month (y m : Z) : Z :=
  fold_right Z.add 0 (map (days_in_month y) (seqZ 1 (m - 1))).

Definition ymd2ord (y m d : Z) : Z :=
  days_before_year y + days_before_month y m + d.

Definition us_per_day : Z := 86400 * 1000000.

(** [datetime(y, m, d)] *)
Definition datetime (y m d : Z) : Z := (ymd2ord y m d - 1) * us_per_day.

(** [datetime.max], 9999-12-31T23:59:59.999999 *)
Definition datetime_max : Z := ymd2ord 9999 12 31 * us_per_day - 1.

(** [timedelta(days=d)] *)
Definition timedelta (days : Z) : Z := days * us_per_day.

(** [t + delta] on a [datetime] *)
Definition datetime_add (t delta : Z) : M Z :=
  let r := t + delta in
  if (0 <=? r) && (r <=? datetime_max) then ret r else raise OverflowError.

(** ** The CSV sink *)

Definition restval : value := VStr "".

(** [DictWriter._dict_to_list] with [extrasaction="raise"] *)
Definition dict_to_list (field_names : list string) (r : row) : outcome (list value) :=
  if forallb (fun k => existsb (String.eqb k) field_names) (keys r)
  then Ret (map (fun k => default restval (get k r)) field_names)
  else Raise ValueError.

(** [writerows]: the records before the first refused one reach the file. *)
Fixpoint writerows (field_names : list string) (rows : list row)
    : list (list value) * option exn :=
  match rows with
  | [] => ([], None)
  | r :: rows' =>
      match dict_to_list field_names r with
      | Raise e => ([], Some e)
      | Ret l => let '(ls, e) := writerows field_names rows' in (l :: ls, e)
      end
  end.

Definition write_to_csv (file_name : string) (rows : list row) : M unit :=
  fun w =>
    match rows with
    | [] => (Ret tt, w)
    | r0 :: _ =>
        let field_names := keys r0 in
        match target w with
        | None => (Raise FileNotFoundError, w)
        | Some dir =>
            let '(ls, e) := writerows field_names rows in
            let w' := with_target (Some (<[file_name := CsvFile field_names ls]> dir)) w in
            match e with
            | None => (Ret tt, w')
            | Some e => (Raise e, w')
            end
        end
    end.

(** [enumerate(values)] *)
Definition enumerate {A} (values : list A) : list (Z * A) :=
  zip (seqZ 0 (Z.of_nat (length values))) values.

Definition write_list_to_csv (file_name field_name : string) (values : list string)
    : M unit :=
  let rows :=
    map (fun '(i, item) => [("id", VInt (i + 1)); (field_name, VStr item)])
        (enumerate values) in
  write_to_csv file_name rows.

(** ** Reference data *)

Definition methods : list string :=
  ["Standard"; "Next Business Day"; "Saturday AM"; "Saturday PM"].

Definition generate_shipping_methods : M Z :=
  traced generate_shipping_methods_call Some
    (write_list_to_csv "shipping_method.csv" "name" methods ;;;
     ret (Z.of_nat (length methods))).

Definition couriers : list string :=
  ["Cheap & Cheerful Delivery"; "Speedy Parcel Delivery"; "Local Delivery Partners"].

Definition generate_couriers : M Z :=
  traced generate_couriers_call Some
    (write_list_to_csv "courier.csv" "name" couriers ;;;
     ret (Z.of_nat (length couriers))).

(** [range(lo, hi)] *)
Definition range (lo hi : Z) : list Z := seqZ lo (hi - lo).

(** ** Customers *)

Fixpoint customers_loop (indices : list Z) (customers : list row) : M (list row) :=
  match indices with
  | [] => ret customers
  | i :: indices' =>
      c <~ city ;;
      k <~ country ;;
      customers_loop indices'
        (customers ++ [[("id", VInt (i + 1)); ("city", VStr c); ("country", VStr k)]])
  end.

Definition generate_customers (number_of_customers : Z) : M unit :=
  traced (generate_customers_call number_of_customers) none
    (customers <~ customers_loop (range 0 number_of_customers) [] ;;
     write_to_csv "customer.csv" customers).

(** ** The catalogue *)

Definition hierarchy : Type := list (string * list (string * list Product)).

Definition get_product_hierarchy : hierarchy :=
  [ ("Home & Garden",
      [ ("Garden Furniture",
          [mkProduct "Table and chair set" 29999; mkProduct "Patio Heater" 19999]);
        ("Home Furnishing",
          [mkProduct "Curtains" 8999; mkProduct "Cushions" 1999]) ]);
    ("Electronics",
      [ ("TV",
          [mkProduct "50 inch 4K TV" 39999; mkProduct "TV Soundbar" 9999]);
        ("Audio",
          [mkProduct "Portable Bluetooth Speaker" 4999;
           mkProduct "Premium Smart Speaker" 39999]) ]);
    ("Clothing",
      [ ("Menswear", [mkProduct "Mens Jeans" 3999; mkProduct "Mens Shorts" 1999]);
        ("Womenswear", [mkProduct "Womens Jeans" 3999; mkProduct "Blouse" 2499]) ]) ].

(** The local variables of [generate_products]. *)
Record catalog : Type := Catalog {
  category_id : Z;
  sub_category_id : Z;
  product_id : Z;
  categories : list row;
  sub_categories : list row;
  products : list row
}.

Definition product_step (st : catalog) (product : Product) : catalog :=
  Catalog (category_id st) (sub_category_id st) (product_id st + 1)
    (categories st) (sub_categories st)
    (products st ++
       [[("id", VInt (product_id st));
         ("sub_category_id", VInt (sub_category_id st));
         ("name", VStr (name product));
         ("price", VFloat (price product))]]).

Definition sub_category_step (st : catalog) (entry : string * list Product) : catalog :=
  let '(sub_category_name, product_set) := entry in
  let st1 :=
    Catalog (category_id st) (sub_category_id st) (product_id st)
      (categories st)
      (sub_categories st ++
         [[("id", VInt (sub_category_id st));
           ("category_id", VInt (category_id st));
           ("name", VStr sub_category_name)]])
      (products st) in
  let st2 := fold_left product_step product_set st1 in
  Catalog (category_id st2) (sub_category_id st2 + 1) (product_id st2)
    (categories st2) (sub_categories st2) (products st2).

Definition category_step (st : catalog)
    (entry : string * list (string * list Product)) : catalog :=
  let '(category_name, sub_category) := entry in
  let st1 :=
    Catalog (category_id st) (sub_category_id st) (product_id st)
      (categories st ++ [[("id", VInt (category_id st)); ("name", VStr category_name)]])
      (sub_categories st) (products st) in
  let st2 := fold_left sub_category_step sub_category st1 in
  Catalog (category_id st2 + 1) (sub_category_id st2) (product_id st2)
    (categories st2) (sub_categories st2) (products st2).

(** The three nested loops of [generate_products] over a hierarchy. *)
Definition expand (product_hierarchy : hierarchy) : catalog :=
  fold_left category_step product_hierarchy (Catalog 1 1 1 [] [] []).

Definition generate_products : M Z :=
  traced generate_products_call Some
    (let st := expand get_product_hierarchy in
     write_to_csv "category.csv" (categories st) ;;;
     write_to_csv "sub_category.csv" (sub_categories st) ;;;
     write_to_csv "product.csv" (products st) ;;;
     ret (Z.of_nat (length (products st)))).

(** ** Orders *)

Fixpoint items_loop (count : nat) (order_id num_products max_quantity : Z)
    (order_items : list row) (order_item_id : Z) : M (list row * Z) :=
  match count with
  | O => ret (order_items, order_item_id)
  | S count' =>
      product <~ random_int 1 num_products ;;
      quantity <~ random_int 1 max_quantity ;;
      items_loop count' order_id num_products max_quantity
        (order_items ++
           [[("id", VInt order_item_id);
             ("order_id", VInt order_id);
             ("product_id", VInt product);
             ("quantity", VInt quantity)]])
        (order_item_id + 1)
  end.

Fixpoint orders_loop (indices : list Z)
    (num_customers num_products num_shipping_methods num_couriers
     max_order_items start_datetime end_datetime max_quantity : Z)
    (orders order_items : list row) (order_item_id : Z)
    : M (list row * list row) :=
  match indices with
  | [] => ret (orders, order_items)
  | i :: indices' =>
      let order_id := i + 1 in
      placed_timestamp <~ date_time_between start_datetime end_datetime ;;
      days <~ random_int 1 4 ;;
      shipped_timestamp <~ datetime_add placed_timestamp (timedelta days) ;;
      customer <~ random_int 1 num_customers ;;
      shipping_method <~ random_int 1 num_shipping_methods ;;
      courier <~ random_int 1 num_couriers ;;
      let orders' :=
        orders ++
          [[("id", VInt order_id);
            ("customer_id", VInt customer);
            ("shipping_method_id", VInt shipping_method);
            ("courier_id", VInt courier);
            ("placed_timestamp", VDatetime placed_timestamp);
            ("shipped_timestamp", VDatetime shipped_timestamp)]] in
      item_count <~ random_int 1 max_order_items ;;
      st <~ items_loop (Z.to_nat item_count) order_id num_products max_quantity
              order_items order_item_id ;;
      orders_loop indices' num_customers num_products num_shipping_methods
        num_couriers max_order_items start_datetime end_datetime max_quantity
        orders' (fst st) (snd st)
  end.

Definition generate_orders
    (num_customers num_products num_shipping_methods num_couriers
     num_orders max_order_items start_datetime end_datetime max_quantity : Z)
    : M unit :=
  traced (generate_orders_call num_customers num_products num_shipping_methods
            num_couriers num_orders max_order_items start_datetime end_datetime
            max_quantity)
    none
    (tables <~ orders_loop (range 0 num_orders) num_customers num_products
                 num_shipping_methods num_couriers max_order_items
                 start_datetime end_datetime max_quantity [] [] 1 ;;
     write_to_csv "order.csv" (fst tables) ;;;
     write_to_csv "order_item.csv" (snd tables)).

(** The defaults of [generate_orders]'s keyword parameters. *)
Definition default_start_datetime : Z := datetime 2025 1 1.
Definition default_end_datetime : Z := datetime 2026 1 1.
Definition default_max_quantity : Z := 3.

(** ** The orchestrator *)

(** [OUTPUT_PATH.exists()] *)
Definition output_path_exists : M bool :=
  fun w => (Ret (match target w with Some _ => true | None => false end), w).

(** [shutil.rmtree(OUTPUT_PATH)] *)
Definition rmtree : M unit :=
  fun w =>
    match target w with
    | None => (Raise FileNotFoundError, w)
    | Some _ => (Ret tt, with_target None w)
    end.

(** [OUTPUT_PATH.mkdir()] *)
Definition mkdir : M unit :=
  fun w =>
    match target w with
    | Some _ => (Raise FileExistsError, w)
    | None => (Ret tt, with_target (Some ∅) w)
    end.

Definition main : M unit :=
  present <~ output_path_exists ;;
  (if present then rmtree else ret tt) ;;;
  mkdir ;;;
  let num_customers := 10 in
  let num_orders := 100 in
  let max_order_items := 3 in
  let max_quantity := 2 in
  num_shipping_methods <~ generate_shipping_methods ;;
  num_couriers <~ generate_couriers ;;
  num_customers' <~ generate_customers num_customers ;;
  num_products <~ generate_products ;;
  generate_orders max_quantity num_products num_shipping_methods num_couriers
    num_orders max_order_items default_start_datetime default_end_datetime
    default_max_quantity.

(** ** Reading tables and files back *)

Definition column (k : string) (rows : list row) : list (option value) :=
  map (get k) rows.

Definition ints (l : list Z) : list (option value) :=
  map (fun i => Some (VInt i)) l.

Fixpoint index_of (k : string) (ks : list string) : option nat :=
  match ks with
  | [] => None
  | k' :: ks' => if String.eqb k k' then Some O else option_map S (index_of k ks')
  end.

(** The cell of a line under the column named [k]. *)
Definition cell (f : csv_file) (k : string) (line : list value) : option value :=
  match index_of k (header f) with
  | Some i => line !! i
  | None => None
  end.

Definition file_column (k : string) (f : csv_file) : list (option value) :=
  map (cell f k) (lines f).

(** The ids of a file are dense: 1, 2, ..., up to the number of its lines. *)
Definition dense_ids (f : csv_file) : Prop :=
  file_column "id" f = ints (seqZ 1 (Z.of_nat (length (lines f)))).

(** The file a table of same-shaped records becomes. *)
Definition to_lines (ks : list string) (rows : list row) : list (list value) :=
  map (fun r => map (fun k => default restval (get k r)) ks) rows.

Definition to_file (rows : list row) : csv_file :=
  match rows with
  | [] => CsvFile [] []
  | r0 :: _ => CsvFile (keys r0) (to_lines (keys r0) rows)
  end.

(** Only the random source was touched between [w] and [w']. *)
Definition frame (w w' : world) : Prop :=
  target w' = target w /\ cities w' = cities w /\
  countries w' = countries w /\ trace w' = trace w.

(** [c] touches nothing but the random source, whatever its outcome. *)
Definition sampler {A} (c : M A) : Prop :=
  forall w r w', c w = (r, w') -> frame w w'.

(** Partial correctness: what [c] returns, when it returns, satisfies [Q]. *)
Definition returns {A} (c : M A) (Q : A -> Prop) : Prop :=
  forall w a w', c w = (Ret a, w') -> Q a.

(** [c] never raises. *)
Definition succeeds {A} (c : M A) : Prop :=
  forall w, exists a w', c w = (Ret a, w').

(** ** Table invariants *)

(** The ids of a table are dense: 1, 2, ..., up to the number of its rows. *)
Definition dense (rows : list row) : Prop :=
  column "id" rows = ints (seqZ 1 (Z.of_nat (length rows))).

Definition uniform (ks : list string) (rows : list row) : Prop :=
  Forall (fun r => keys r = ks) rows.

(** Row [r] carries under [k] an integer of [1..n]. *)
Definition refers (k : string) (n : Z) (r : row) : Prop :=
  exists z, get k r = Some (VInt z) /\ 1 <= z <= n.

Definition category_keys : list string := ["id"; "name"].
Definition sub_category_keys : list string := ["id"; "category_id"; "name"].
Definition product_keys : list string := ["id"; "sub_category_id"; "name"; "price"].

(** What the three tables of the catalogue satisfy at every point of the
    nested loops. *)
Record tables_ok (st : catalog) : Prop := TablesOk {
  categories_dense : dense (categories st);
  sub_categories_dense : dense (sub_categories st);
  products_dense : dense (products st);
  categories_uniform : uniform category_keys (categories st);
  sub_categories_uniform : uniform sub_category_keys (sub_categories st);
  products_uniform : uniform product_keys (products st);
  sub_categories_refer :
    Forall (refers "category_id" (Z.of_nat (length (categories st))))
      (sub_categories st);
  products_refer :
    Forall (refers "sub_category_id" (Z.of_nat (length (sub_categories st))))
      (products st)
}.

(** The counters against the table sizes: [dc] and [ds] are 1 while the
    category, respectively the sub-category, whose row is already in its
    table is still being walked. *)
Definition counters_ok (dc ds : Z) (st : catalog) : Prop :=
  category_id st + dc = Z.of_nat (length (categories st)) + 1 /\
  sub_category_id st + ds = Z.of_nat (length (sub_categories st)) + 1 /\
  product_id st = Z.of_nat (length (products st)) + 1 /\
  1 <= category_id st /\ 1 <= sub_category_id st.

(** Every line of [child] carries under [k] the id of a line of [parent],
    an integer between 1 and the number of lines of [parent]. *)
Definition file_refers (child : csv_file) (k : string) (parent : csv_file) : Prop :=
  Forall (fun l => exists z,
            cell child k l = Some (VInt z) /\
            1 <= z <= Z.of_nat (length (lines parent)) /\
            In (Some (VInt z)) (file_column "id" parent))
         (lines child).

Definition customer_keys : list string := ["id"; "city"; "country"].
Definition order_keys : list string :=
  ["id"; "customer_id"; "shipping_method_id"; "courier_id";
   "placed_timestamp"; "shipped_timestamp"].
Definition order_item_keys : list string := ["id"; "order_id"; "product_id"; "quantity"].

(** An order row as the loop of [generate_orders] builds it: foreign keys
    within their ranges, shipped [d] whole days after placed, [d] in 1..4. *)
Definition order_ok (num_customers num_shipping_methods num_couriers : Z) (r : row)
    : Prop :=
  exists id c s k p d,
    r = [("id", VInt id);
         ("customer_id", VInt c);
         ("shipping_method_id", VInt s);
         ("courier_id", VInt k);
         ("placed_timestamp", VDatetime p);
         ("shipped_timestamp", VDatetime (p + timedelta d))] /\
    1 <= c <= num_customers /\
    1 <= s <= num_shipping_methods /\
    1 <= k <= num_couriers /\
    1 <= d <= 4.

(** An order-item row of the order [order_id]. *)
Definition item_ok (num_products max_quantity order_id : Z) (r : row) : Prop :=
  exists id p q,
    r = [("id", VInt id);
         ("order_id", VInt order_id);
         ("product_id", VInt p);
         ("quantity", VInt q)] /\
    1 <= p <= num_products /\
    1 <= q <= max_quantity.

(** What the inner loop of [generate_orders] returns. *)
Definition items_post (num_products max_quantity order_id : Z)
    (order_items : list row) (order_item_id : Z) (count : nat)
    (res : list row * Z) : Prop :=
  exists new,
    fst res = order_items ++ new /\
    snd res = order_item_id + Z.of_nat count /\
    length new = count /\
    column "id" new = ints (seqZ order_item_id (Z.of_nat count)) /\
    Forall (item_ok num_products max_quantity order_id) new.

(** What the outer loop of [generate_orders] returns. *)
Definition orders_post
    (num_customers num_products num_shipping_methods num_couriers max_quantity : Z)
    (indices : list Z) (orders order_items : list row) (order_item_id : Z)
    (res : list row * list row) : Prop :=
  exists new_orders new_items,
    fst res = orders ++ new_orders /\
    snd res = order_items ++ new_items /\
    column "id" new_orders = ints (map (fun i => i + 1) indices) /\
    Forall (order_ok num_customers num_shipping_methods num_couriers) new_orders /\
    column "id" new_items = ints (seqZ order_item_id (Z.of_nat (length new_items))) /\
    Forall (fun r => exists i, In i indices /\
                               item_ok num_products max_quantity (i + 1) r) new_items /\
    Forall (fun i => Exists (item_ok num_products max_quantity (i + 1)) new_items)
           indices.

(** What the loop of [generate_customers] returns. *)
Definition customers_post (indices : list Z) (customers : list row)
    (res : list row) : Prop :=
  exists new,
    res = customers ++ new /\
    column "id" new = ints (map (fun i => i + 1) indices) /\
    uniform customer_keys new.

(** [c] raises nothing but exceptions of [E]. *)
Definition raises_only {A} (c : M A) (E : exn -> Prop) : Prop :=
  forall w e w', c w = (Raise e, w') -> E e.

(** The exceptions the sampling of [generate_orders] can end in. *)
Definition sampling_error (e : exn) : Prop := e = ValueError \/ e = OverflowError.

(** The directory after the sink was handed [rows] for [file_name]. *)
Definition store (file_name : string) (rows : list row) (dir : gmap string csv_file)
    : gmap string csv_file :=
  match rows with
  | [] => dir
  | _ :: _ => <[file_name := to_file rows]> dir
  end.

(** Between two states of the output directory, every file that is new or
    has changed has dense ids. *)
Definition dense_update (t t' : option (gmap string csv_file)) : Prop :=
  forall dir', t' = Some dir' ->
    exists dir, t = Some dir /\
      forall f file, dir' !! f = Some file -> dir !! f = Some file \/ dense_ids file.

Definition keeps_dense {A} (c : M A) : Prop :=
  forall w r w', c w = (r, w') -> dense_update (target w) (target w').

(** The generator a call stands for. *)
Definition run (c : call) : M unit :=
  match c with
  | generate_shipping_methods_call => generate_shipping_methods ;;; ret tt
  | generate_couriers_call => generate_couriers ;;; ret tt
  | generate_customers_call number_of_customers =>
      generate_customers number_of_customers
  | generate_products_call => generate_products ;;; ret tt
  | generate_orders_call num_customers num_products num_shipping_methods
      num_couriers num_orders max_order_items start_datetime end_datetime
      max_quantity =>
      generate_orders num_customers num_products num_shipping_methods
        num_couriers num_orders max_order_items start_datetime end_datetime
        max_quantity
  end.

(** The rows [write_list_to_csv] hands to the sink. *)
Definition enumerated_rows (field_name : string) (values : list string) : list row :=
  map (fun '(i, item) => [("id", VInt (i + 1)); (field_name, VStr item)])
      (enumerate values).

(** A call that ran from [w] to [w'] left the directory [dir'] and added
    the events [evs] to the trace. *)
Definition ran (w w' : world) (dir' : gmap string csv_file) (evs : list event)
    : Prop :=
  target w' = Some dir' /\ trace w' = trace w ++ evs /\
  cities w' = cities w /\ countries w' = countries w.

(** The line a record becomes under the header [ks]. *)
Definition to_line (ks : list string) (r : row) : list value :=
  map (fun k => default restval (get k r)) ks.

(** ** A sample world *)

(** An empty output directory, a short entropy tape and a two-town locale. *)
Definition sample_world : world :=
  World (Some ∅) [5; 2; 7; 1; 1; 3; 0; 4; 9; 6; 8; 12; 3; 5; 10; 2; 2; 7]
    ["Paris"; "Oslo"] ["France"; "Norway"] [].

(** What [main] does once the output directory has been recreated. *)
Definition main_generators : M unit :=
  let num_customers := 10 in
  let num_orders := 100 in
  let max_order_items := 3 in
  let max_quantity := 2 in
  num_shipping_methods <~ generate_shipping_methods ;;
  num_couriers <~ generate_couriers ;;
  num_customers' <~ generate_customers num_customers ;;
  num_products <~ generate_products ;;
  generate_orders max_quantity num_products num_shipping_methods num_couriers
    num_orders max_order_items default_start_datetime default_end_datetime
    default_max_quantity.

(** The calls [main] makes, in order, with their arguments and results. *)
Definition main_trace : list event :=
  [Enter generate_shipping_methods_call;
   Leave generate_shipping_methods_call (Some 4);
   Enter generate_couriers_call;
   Leave generate_couriers_call (Some 3);
   Enter (generate_customers_call 10);
   Leave (generate_customers_call 10) None;
   Enter generate_products_call;
   Leave generate_products_call (Some 12);
   Enter (generate_orders_call 2 12 4 3 100 3 default_start_datetime
            default_end_datetime 3);
   Leave (generate_orders_call 2 12 4 3 100 3 default_start_datetime
            default_end_datetime 3) None].

(** ** Further notions *)

(** The eight files of a complete run. *)
Definition output_files : list string :=
  ["shipping_method.csv"; "courier.csv"; "customer.csv"; "category.csv";
   "sub_category.csv"; "product.csv"; "order.csv"; "order_item.csv"].

(** An [order_id] column in which the successive orders, numbered from
    [first], own [counts] consecutive lines each. *)
Fixpoint grouped (first : Z) (counts : list nat) : list (option value) :=
  match counts with
  | [] => []
  | c :: counts' => repeat (Some (VInt first)) c ++ grouped (first + 1) counts'
  end.

(** The strings of a list as a column of cells. *)
Definition strs (l : list string) : list (option value) :=
  map (fun v => Some (VStr v)) l.

(** The three tables of the catalogue only grow from [st] to [st']. *)
Definition grows (st st' : catalog) : Prop :=
  (exists a, categories st' = categories st ++ a) /\
  (exists b, sub_categories st' = sub_categories st ++ b) /\
  (exists c, products st' = products st ++ c).

(** The sub-categories of a hierarchy, and its products, in the order the
    loops of [generate_products] meet them. *)
Definition all_sub_categories (h : hierarchy) : list (string * list Product) :=
  concat (map snd h).

Definition all_products (h : hierarchy) : list Product :=
  concat (map snd (all_sub_categories h)).

(** * Proofs *)

(** ** The monad *)

Lemma bind_inv {A B} (c : M A) (k : A -> M B) w r w' :
  bind c k w = (r, w') ->
  (exists e, c w = (Raise e, w') /\ r = Raise e) \/
  (exists a w1, c w = (Ret a, w1) /\ k a w1 = (r, w')).
Proof.
  unfold bind. destruct (c w) as [[a|e] w1]; intros H.
  - right. eauto.
  - left. inversion H; subst. eauto.
Qed.

Lemma bind_ret_inv {A B} (c : M A) (k : A -> M B) w b w' :
  bind c k w = (Ret b, w') ->
  exists a w1, c w = (Ret a, w1) /\ k a w1 = (Ret b, w').
Proof.
  intros H. apply bind_inv in H as [(e & _ & He)|H]; [discriminate|exact H].
Qed.

Lemma bind_ret_eq {A B} (c : M A) (k : A -> M B) w a w1 :
  c w = (Ret a, w1) -> bind c k w = k a w1.
Proof. unfold bind. intros ->. reflexivity. Qed.

Lemma bind_raise_eq {A B} (c : M A) (k : A -> M B) w e w1 :
  c w = (Raise e, w1) -> bind c k w = (Raise e, w1).
Proof. unfold bind. intros ->. reflexivity. Qed.

Lemma frame_refl w : frame w w.
Proof. repeat split. Qed.

Lemma frame_trans w1 w2 w3 : frame w1 w2 -> frame w2 w3 -> frame w1 w3.
Proof.
  unfold frame. intros (a1 & b1 & c1 & d1) (a2 & b2 & c2 & d2).
  repeat split; congruence.
Qed.

Lemma sampler_ret {A} (a : A) : sampler (ret a).
Proof. intros w r w' H. inversion H. apply frame_refl. Qed.

Lemma sampler_raise {A} e : sampler (@raise A e).
Proof. intros w r w' H. inversion H. apply frame_refl. Qed.

Lemma sampler_bind {A B} (c : M A) (k : A -> M B) :
  sampler c -> (forall a, sampler (k a)) -> sampler (bind c k).
Proof.
  intros Hc Hk w r w' H. apply bind_inv in H as [(e & H & _)|(a & w1 & H1 & H2)].
  - eapply Hc, H.
  - eapply frame_trans; [eapply Hc, H1 | eapply Hk, H2].
Qed.

Lemma returns_ret {A} (a : A) (Q : A -> Prop) : Q a -> returns (ret a) Q.
Proof. intros HQ w a' w' H. inversion H; subst. exact HQ. Qed.

Lemma returns_raise {A} e (Q : A -> Prop) : returns (raise e) Q.
Proof. intros w a' w' H. inversion H. Qed.

Lemma returns_bind {A B} (c : M A) (k : A -> M B) (P : A -> Prop) (Q : B -> Prop) :
  returns c P -> (forall a, P a -> returns (k a) Q) -> returns (bind c k) Q.
Proof.
  intros Hc Hk w b w' H. apply bind_ret_inv in H as (a & w1 & H1 & H2).
  eapply Hk; [eapply Hc, H1 | exact H2].
Qed.

Lemma returns_weaken {A} (c : M A) (P Q : A -> Prop) :
  returns c P -> (forall a, P a -> Q a) -> returns c Q.
Proof. intros Hc HPQ w a w' H. eapply HPQ, Hc, H. Qed.

Lemma succeeds_ret {A} (a : A) : succeeds (ret a).
Proof. intros w. exists a, w. reflexivity. Qed.

Lemma succeeds_bind {A B} (c : M A) (k : A -> M B) (P : A -> Prop) :
  succeeds c -> returns c P -> (forall a, P a -> succeeds (k a)) ->
  succeeds (bind c k).
Proof.
  intros Hc HP Hk w. destruct (Hc w) as (a & w1 & H1).
  destruct (Hk a (HP _ _ _ H1) w1) as (b & w2 & H2).
  exists b, w2. rewrite (bind_ret_eq _ _ _ _ _ H1). exact H2.
Qed.

(** ** The random source *)

Lemma draw_total w : exists x w', draw w = (Ret x, w') /\ frame w w'.
Proof.
  unfold draw. destruct (entropy w) as [|x e].
  - exists 0, w. split; [reflexivity | apply frame_refl].
  - exists x, (with_entropy e w). split; [reflexivity | repeat split].
Qed.

Lemma sampler_draw : sampler draw.
Proof.
  intros w r w' H. destruct (draw_total w) as (x & w1 & H1 & Hf).
  rewrite H1 in H. inversion H; subst. exact Hf.
Qed.

Lemma succeeds_draw : succeeds draw.
Proof. intros w. destruct (draw_total w) as (x & w1 & H1 & _). eauto. Qed.

Lemma sampler_random_int lo hi : sampler (random_int lo hi).
Proof.
  unfold random_int. destruct (hi <? lo).
  - apply sampler_raise.
  - apply sampler_bind; [apply sampler_draw | intros; apply sampler_ret].
Qed.

Lemma returns_random_int lo hi :
  returns (random_int lo hi) (fun x => lo <= x <= hi).
Proof.
  unfold random_int. destruct (Z.ltb_spec hi lo) as [Hlt|Hle].
  - apply returns_raise.
  - eapply returns_bind with (P := fun _ => True).
    + intros w a w' _. exact I.
    + intros x _. apply returns_ret.
      pose proof (Z.mod_pos_bound x (hi - lo + 1)). lia.
Qed.

Lemma succeeds_random_int lo hi : lo <= hi -> succeeds (random_int lo hi).
Proof.
  intros Hle. unfold random_int. destruct (Z.ltb_spec hi lo) as [Hlt|_]; [lia|].
  eapply succeeds_bind with (P := fun _ => True);
    [apply succeeds_draw | intros ? ? ? _; exact I | intros; apply succeeds_ret].
Qed.

Lemma random_int_empty lo hi w : hi < lo -> random_int lo hi w = (Raise ValueError, w).
Proof.
  intros Hlt. unfold random_int. destruct (Z.ltb_spec hi lo); [reflexivity | lia].
Qed.

Lemma sampler_date_time_between a b : sampler (date_time_between a b).
Proof.
  unfold date_time_between.
  apply sampler_bind; [apply sampler_draw | intros; apply sampler_ret].
Qed.

Lemma returns_date_time_between a b :
  returns (date_time_between a b) (fun t => Z.min a b <= t <= Z.max a b).
Proof.
  unfold date_time_between. eapply returns_bind with (P := fun _ => True).
  - intros w x w' _. exact I.
  - intros x _. apply returns_ret.
    pose proof (Z.mod_pos_bound x (Z.max a b - Z.min a b + 1)). lia.
Qed.

Lemma succeeds_date_time_between a b : succeeds (date_time_between a b).
Proof.
  unfold date_time_between.
  eapply succeeds_bind with (P := fun _ => True);
    [apply succeeds_draw | intros ? ? ? _; exact I | intros; apply succeeds_ret].
Qed.

Lemma sampler_datetime_add t d : sampler (datetime_add t d).
Proof.
  unfold datetime_add. cbv zeta.
  destruct (_ && _); [apply sampler_ret | apply sampler_raise].
Qed.

Lemma returns_datetime_add t d :
  returns (datetime_add t d) (fun r => r = t + d).
Proof.
  unfold datetime_add. cbv zeta.
  destruct (_ && _); [apply returns_ret; reflexivity | apply returns_raise].
Qed.

Lemma succeeds_datetime_add t d :
  0 <= t + d <= datetime_max -> succeeds (datetime_add t d).
Proof.
  intros [H1 H2]. unfold datetime_add. cbv zeta.
  apply Z.leb_le in H1, H2. rewrite H1, H2. apply succeeds_ret.
Qed.

(** ** The CSV sink *)

Lemma dict_to_list_uniform ks r :
  keys r = ks ->
  dict_to_list ks r = Ret (map (fun k => default restval (get k r)) ks).
Proof.
  intros <-. unfold dict_to_list.
  replace (forallb _ (keys r)) with true; [reflexivity|].
  symmetry. apply forallb_forall. intros k Hk.
  apply existsb_exists. exists k. split; [exact Hk | apply String.eqb_refl].
Qed.

Lemma writerows_uniform ks rows :
  Forall (fun r => keys r = ks) rows ->
  writerows ks rows = (to_lines ks rows, None).
Proof.
  induction 1 as [|r rows Hr _ IH]; [reflexivity|].
  cbn [writerows]. rewrite (dict_to_list_uniform _ _ Hr), IH. reflexivity.
Qed.

Lemma write_to_csv_uniform file_name rows ks dir w :
  target w = Some dir ->
  rows <> [] ->
  Forall (fun r => keys r = ks) rows ->
  write_to_csv file_name rows w =
    (Ret tt, with_target (Some (<[file_name := to_file rows]> dir)) w).
Proof.
  intros Hdir Hne Hall. destruct rows as [|r0 rows]; [congruence|].
  assert (Hks : keys r0 = ks) by (inversion Hall; assumption). subst ks.
  unfold write_to_csv, to_file. rewrite Hdir.
  rewrite (writerows_uniform _ _ Hall). reflexivity.
Qed.

Lemma write_to_csv_absent file_name rows w :
  target w = None -> rows <> [] ->
  write_to_csv file_name rows w = (Raise FileNotFoundError, w).
Proof.
  intros Hdir Hne. destruct rows as [|r0 rows]; [congruence|].
  unfold write_to_csv. rewrite Hdir. reflexivity.
Qed.

(** C10. Handed an empty record sequence, the sink returns normally and
    leaves the world exactly as it found it, whatever the destination name:
    no file is created, an existing file keeps its contents, and this holds
    even when the output directory itself is missing. *)
Theorem write_to_csv_empty_is_noop :
  forall (file_name : string) (w : world),
    write_to_csv file_name [] w = (Ret tt, w).
Proof. intros file_name w. reflexivity. Qed.

(** ** Reference data *)

(** C9. In an existing output directory, [generate_shipping_methods]
    returns 4 and leaves [shipping_method.csv] with the header [id,name]
    and the four lines 1 Standard, 2 Next Business Day, 3 Saturday AM,
    4 Saturday PM, in that order; every other file, and the random source,
    are untouched. *)
Theorem generate_shipping_methods_file :
  forall (w : world) (dir : gmap string csv_file),
    target w = Some dir ->
    exists w',
      generate_shipping_methods w = (Ret 4, w') /\
      target w' =
        Some (<["shipping_method.csv" :=
                 CsvFile ["id"; "name"]
                   [[VInt 1; VStr "Standard"];
                    [VInt 2; VStr "Next Business Day"];
                    [VInt 3; VStr "Saturday AM"];
                    [VInt 4; VStr "Saturday PM"]]]> dir) /\
      entropy w' = entropy w.
Proof.
  intros w dir Hdir.
  unfold generate_shipping_methods, traced, write_list_to_csv.
  eexists. split.
  - unfold bind at 1. cbn [record]. unfold bind at 1.
    erewrite bind_ret_eq.
    2:{ eapply write_to_csv_uniform with (ks := ["id"; "name"]).
        - exact Hdir.
        - discriminate.
        - repeat constructor. }
    reflexivity.
  - split; reflexivity.
Qed.

Lemma generate_shipping_methods_file_witness :
  exists w',
    generate_shipping_methods (World (Some ∅) [] [] [] []) = (Ret 4, w') /\
    target w' =
      Some (<["shipping_method.csv" :=
               CsvFile ["id"; "name"]
                 [[VInt 1; VStr "Standard"];
                  [VInt 2; VStr "Next Business Day"];
                  [VInt 3; VStr "Saturday AM"];
                  [VInt 4; VStr "Saturday PM"]]]> ∅) /\
    entropy w' = [].
Proof.
  apply (generate_shipping_methods_file (World (Some ∅) [] [] [] []) ∅).
  reflexivity.
Defined.

(** ** Dense ids and columns *)

Lemma column_snoc k rows r : column k (rows ++ [r]) = column k rows ++ [get k r].
Proof. unfold column. rewrite map_app. reflexivity. Qed.

Lemma ints_seqZ_snoc m n :
  ints (seqZ m (Z.of_nat (S n))) = ints (seqZ m (Z.of_nat n)) ++ [Some (VInt (m + Z.of_nat n))].
Proof.
  unfold ints. rewrite Nat2Z.inj_succ, <- Z.add_1_r.
  rewrite seqZ_app by lia. rewrite map_app. reflexivity.
Qed.

Lemma dense_nil : dense [].
Proof. reflexivity. Qed.

Lemma dense_snoc rows r :
  dense rows ->
  get "id" r = Some (VInt (Z.of_nat (length rows) + 1)) ->
  dense (rows ++ [r]).
Proof.
  unfold dense. intros Hd Hr.
  rewrite column_snoc, length_app, Nat.add_1_r, ints_seqZ_snoc, Hd, Hr.
  rewrite (Z.add_comm 1). reflexivity.
Qed.

Lemma ints_lookup l (i : nat) z : l !! i = Some z -> ints l !! i = Some (Some (VInt z)).
Proof. intros H. unfold ints. rewrite list_lookup_fmap, H. reflexivity. Qed.

Lemma dense_has_id rows z :
  dense rows -> 1 <= z <= Z.of_nat (length rows) ->
  In (Some (VInt z)) (column "id" rows).
Proof.
  intros Hd Hz. rewrite Hd. unfold ints. apply in_map_iff.
  exists z. split; [reflexivity|].
  apply list_elem_of_In, elem_of_seqZ. lia.
Qed.

Lemma uniform_snoc ks rows r : uniform ks rows -> keys r = ks -> uniform ks (rows ++ [r]).
Proof. intros H Hr. apply Forall_app. split; [exact H | repeat constructor; exact Hr]. Qed.

Lemma refers_mono k n m r : n <= m -> refers k n r -> refers k m r.
Proof. intros Hle (z & Hz & Hb). exists z. split; [exact Hz | lia]. Qed.

(** ** The catalogue *)

Lemma product_step_ok st product :
  tables_ok st -> counters_ok 1 1 st ->
  tables_ok (product_step st product) /\ counters_ok 1 1 (product_step st product).
Proof.
  intros [] (Hc & Hs & Hp & Hc1 & Hs1). unfold counters_ok, product_step in *. cbn in *.
  split; [constructor; cbn; try assumption | rewrite length_app; cbn [length]; lia].
  - apply dense_snoc; [assumption | cbn; apply f_equal, f_equal; lia].
  - apply uniform_snoc; [assumption | reflexivity].
  - apply Forall_app. split; [assumption|]. repeat constructor.
    exists (sub_category_id st). split; [reflexivity | lia].
Qed.

Lemma products_loop_ok product_set st :
  tables_ok st -> counters_ok 1 1 st ->
  tables_ok (fold_left product_step product_set st) /\
  counters_ok 1 1 (fold_left product_step product_set st).
Proof.
  revert st. induction product_set as [|product rest IH]; intros st Hok Hcnt.
  - split; assumption.
  - cbn [fold_left]. destruct (product_step_ok st product Hok Hcnt). apply IH; assumption.
Qed.

Lemma sub_category_step_ok st entry :
  tables_ok st -> counters_ok 1 0 st ->
  tables_ok (sub_category_step st entry) /\ counters_ok 1 0 (sub_category_step st entry).
Proof.
  intros Hok (Hc & Hs & Hp & Hc1 & Hs1). destruct entry as [sub_category_name product_set].
  unfold sub_category_step.
  match goal with |- context [fold_left product_step product_set ?s] => set (st1 := s) end.
  assert (H1 : tables_ok st1 /\ counters_ok 1 1 st1).
  { destruct Hok. subst st1. unfold counters_ok. cbn. rewrite length_app. cbn.
    split; [constructor; cbn; try assumption | lia].
    - apply dense_snoc; [assumption | cbn; apply f_equal, f_equal; lia].
    - apply uniform_snoc; [assumption | reflexivity].
    - apply Forall_app. split; [assumption|]. repeat constructor.
      exists (category_id st). split; [reflexivity | lia].
    - rewrite length_app. eapply Forall_impl; [eassumption|].
      intros r. apply refers_mono. lia. }
  destruct H1 as [Hok1 Hcnt1].
  destruct (products_loop_ok product_set st1 Hok1 Hcnt1) as [Hok2 (Hc2 & Hs2 & Hp2 & Hc3 & Hs3)].
  split; [destruct Hok2; constructor; assumption | unfold counters_ok; cbn; lia].
Qed.

Lemma sub_categories_loop_ok sub_category st :
  tables_ok st -> counters_ok 1 0 st ->
  tables_ok (fold_left sub_category_step sub_category st) /\
  counters_ok 1 0 (fold_left sub_category_step sub_category st).
Proof.
  revert st. induction sub_category as [|entry rest IH]; intros st Hok Hcnt.
  - split; assumption.
  - cbn [fold_left]. destruct (sub_category_step_ok st entry Hok Hcnt). apply IH; assumption.
Qed.

Lemma category_step_ok st entry :
  tables_ok st -> counters_ok 0 0 st ->
  tables_ok (category_step st entry) /\ counters_ok 0 0 (category_step st entry).
Proof.
  intros Hok (Hc & Hs & Hp & Hc1 & Hs1). destruct entry as [category_name sub_category].
  unfold category_step.
  match goal with |- context [fold_left sub_category_step sub_category ?s] => set (st1 := s) end.
  assert (H1 : tables_ok st1 /\ counters_ok 1 0 st1).
  { destruct Hok. subst st1. unfold counters_ok. cbn. rewrite length_app. cbn.
    split; [constructor; cbn; try assumption | lia].
    - apply dense_snoc; [assumption | cbn; apply f_equal, f_equal; lia].
    - apply uniform_snoc; [assumption | reflexivity].
    - rewrite length_app. eapply Forall_impl; [eassumption|].
      intros r. apply refers_mono. lia. }
  destruct H1 as [Hok1 Hcnt1].
  destruct (sub_categories_loop_ok sub_category st1 Hok1 Hcnt1) as [Hok2 (Hc2 & Hs2 & Hp2 & Hc3 & Hs3)].
  split; [destruct Hok2; constructor; assumption | unfold counters_ok; cbn; lia].
Qed.

Lemma categories_loop_ok product_hierarchy st :
  tables_ok st -> counters_ok 0 0 st ->
  tables_ok (fold_left category_step product_hierarchy st) /\
  counters_ok 0 0 (fold_left category_step product_hierarchy st).
Proof.
  revert st. induction product_hierarchy as [|entry rest IH]; intros st Hok Hcnt.
  - split; assumption.
  - cbn [fold_left]. destruct (category_step_ok st entry Hok Hcnt). apply IH; assumption.
Qed.

(** Whatever the hierarchy, the three tables come out with dense ids and
    with parent references inside the parent table. *)
Lemma expand_ok (product_hierarchy : hierarchy) : tables_ok (expand product_hierarchy).
Proof.
  unfold expand. apply categories_loop_ok.
  - constructor; cbn; try apply dense_nil; constructor.
  - unfold counters_ok. cbn. lia.
Qed.

(** ** From tables to files *)

Lemma index_of_lookup k ks i : index_of k ks = Some i -> ks !! i = Some k.
Proof.
  revert i. induction ks as [|k' ks IH]; intros i H; [discriminate|].
  cbn in H. destruct (String.eqb_spec k k') as [->|Hne].
  - inversion H. reflexivity.
  - destruct (index_of k ks) as [j|]; [|discriminate].
    inversion H. cbn. apply IH. reflexivity.
Qed.

Lemma index_of_In k ks : In k ks -> exists i, index_of k ks = Some i.
Proof.
  induction ks as [|k' ks IH]; intros Hin; [destruct Hin|].
  cbn. destruct (String.eqb_spec k k') as [->|Hne]; [eauto|].
  destruct Hin as [->|Hin]; [congruence|].
  destruct (IH Hin) as (i & ->). cbn. eauto.
Qed.

Lemma get_keys k r : In k (keys r) -> exists v, get k r = Some v.
Proof.
  induction r as [|[k' v] r IH]; intros Hin; [destruct Hin|].
  cbn. destruct (String.eqb_spec k k') as [->|Hne]; [eauto|].
  destruct Hin as [Heq|Hin]; [cbn in Heq; congruence | exact (IH Hin)].
Qed.

Lemma to_file_lines ks rows :
  uniform ks rows -> rows <> [] -> to_file rows = CsvFile ks (to_lines ks rows).
Proof.
  intros Hu Hne. destruct rows as [|r0 rows]; [congruence|].
  inversion Hu; subst. reflexivity.
Qed.

Lemma cell_to_line ks rows k r :
  uniform ks rows -> rows <> [] -> keys r = ks -> In k ks ->
  cell (to_file rows) k (map (fun k' => default restval (get k' r)) ks) = get k r.
Proof.
  intros Hu Hne Hr Hin. rewrite (to_file_lines _ _ Hu Hne). unfold cell. cbn [header].
  destruct (index_of_In _ _ Hin) as (i & Hi). rewrite Hi.
  rewrite list_lookup_fmap, (index_of_lookup _ _ _ Hi). cbn.
  rewrite <- Hr in Hin. destruct (get_keys _ _ Hin) as (v & ->). reflexivity.
Qed.

Lemma file_column_to_file ks rows k :
  uniform ks rows -> rows <> [] -> In k ks ->
  file_column k (to_file rows) = column k rows.
Proof.
  intros Hu Hne Hin. unfold file_column, column.
  rewrite (to_file_lines _ _ Hu Hne) at 2. cbn [lines]. unfold to_lines.
  rewrite map_map. apply map_ext_in. intros r Hr.
  apply (cell_to_line ks); try assumption.
  apply (proj1 (List.Forall_forall _ _) Hu), Hr.
Qed.

Lemma to_file_length rows : length (lines (to_file rows)) = length rows.
Proof. destruct rows; [reflexivity|]. cbn. unfold to_lines. rewrite length_map. reflexivity. Qed.

Lemma dense_to_file ks rows :
  uniform ks rows -> In "id" ks -> dense rows -> dense_ids (to_file rows).
Proof.
  intros Hu Hin Hd. destruct rows as [|r0 rows]; [reflexivity|].
  unfold dense_ids. rewrite to_file_length.
  rewrite (file_column_to_file ks); [exact Hd | exact Hu | discriminate | exact Hin].
Qed.

Lemma refers_to_file ks ks' child parent k :
  uniform ks child -> child <> [] -> In k ks ->
  uniform ks' parent -> parent <> [] -> In "id" ks' ->
  dense parent ->
  Forall (refers k (Z.of_nat (length parent))) child ->
  file_refers (to_file child) k (to_file parent).
Proof.
  intros Hu Hne Hin Hu' Hne' Hin' Hd Href. unfold file_refers.
  assert (Hl : lines (to_file child) = to_lines ks child)
    by (rewrite (to_file_lines _ _ Hu Hne); reflexivity).
  rewrite Hl. unfold to_lines.
  apply List.Forall_map. apply List.Forall_forall. intros r Hr.
  pose proof (proj1 (List.Forall_forall _ _) Href r Hr) as (z & Hz & Hb).
  pose proof (proj1 (List.Forall_forall _ _) Hu r Hr) as Hk.
  exists z. rewrite (cell_to_line ks) by assumption.
  rewrite to_file_length, (file_column_to_file ks') by assumption.
  repeat split; try assumption; try lia. apply dense_has_id; assumption.
Qed.

(** ** Traced calls *)

Lemma traced_ret {A} c res (body : M A) w a w1 :
  body (log (Enter c) w) = (Ret a, w1) ->
  traced c res body w = (Ret a, log (Leave c (res a)) w1).
Proof. intros H. unfold traced, bind, record. rewrite H. reflexivity. Qed.

Lemma traced_raise {A} c res (body : M A) w e w1 :
  body (log (Enter c) w) = (Raise e, w1) ->
  traced c res body w = (Raise e, w1).
Proof. intros H. unfold traced, bind, record. rewrite H. reflexivity. Qed.

Lemma traced_inv {A} c res (body : M A) w r w' :
  traced c res body w = (r, w') ->
  (exists e, r = Raise e /\ body (log (Enter c) w) = (Raise e, w')) \/
  (exists a w1, r = Ret a /\ body (log (Enter c) w) = (Ret a, w1) /\
                w' = log (Leave c (res a)) w1).
Proof.
  destruct (body (log (Enter c) w)) as [[a|e] w1] eqn:Hb; intros H.
  - rewrite (traced_ret _ _ _ _ _ _ Hb) in H. inversion H; subst. right. eauto.
  - rewrite (traced_raise _ _ _ _ _ _ Hb) in H. inversion H; subst. left. eauto.
Qed.

(** ** The catalogue on disk *)

Lemma generate_products_run w dir :
  target w = Some dir ->
  let st := expand get_product_hierarchy in
  generate_products w =
    (Ret 12,
     log (Leave generate_products_call (Some 12))
       (with_target
          (Some (<["product.csv" := to_file (products st)]>
                   (<["sub_category.csv" := to_file (sub_categories st)]>
                      (<["category.csv" := to_file (categories st)]> dir))))
          (log (Enter generate_products_call) w))).
Proof.
  intros Hdir st. unfold generate_products. apply traced_ret. cbv zeta.
  destruct (expand_ok get_product_hierarchy). subst st.
  erewrite bind_ret_eq.
  2:{ eapply write_to_csv_uniform;
        [exact Hdir | vm_compute; discriminate | eassumption]. }
  erewrite bind_ret_eq.
  2:{ eapply write_to_csv_uniform;
        [reflexivity | vm_compute; discriminate | eassumption]. }
  erewrite bind_ret_eq.
  2:{ eapply write_to_csv_uniform;
        [reflexivity | vm_compute; discriminate | eassumption]. }
  reflexivity.
Qed.

(** C5. In an existing output directory, [generate_products] leaves three
    files such that every line of [sub_category.csv] carries as
    [category_id] the id of a line of [category.csv], every line of
    [product.csv] carries as [sub_category_id] the id of a line of
    [sub_category.csv], and each such key lies between 1 and the number of
    lines of the file it points into. *)
Theorem generate_products_references :
  forall (w : world) (dir : gmap string csv_file),
    target w = Some dir ->
    exists w' cat sub prod n,
      generate_products w = (Ret n, w') /\
      target w' =
        Some (<["product.csv" := prod]>
                (<["sub_category.csv" := sub]> (<["category.csv" := cat]> dir))) /\
      file_refers sub "category_id" cat /\
      file_refers prod "sub_category_id" sub.
Proof.
  intros w dir Hdir. rewrite (generate_products_run w dir Hdir). cbv zeta.
  destruct (expand_ok get_product_hierarchy).
  do 5 eexists. split; [reflexivity|]. split; [reflexivity|]. split.
  - eapply refers_to_file; try eassumption;
      solve [vm_compute; discriminate | cbn; tauto].
  - eapply refers_to_file; try eassumption;
      solve [vm_compute; discriminate | cbn; tauto].
Qed.

Lemma generate_products_references_witness :
  exists w' cat sub prod n,
    generate_products (World (Some ∅) [] [] [] []) = (Ret n, w') /\
    target w' =
      Some (<["product.csv" := prod]>
              (<["sub_category.csv" := sub]> (<["category.csv" := cat]> ∅))) /\
    file_refers sub "category_id" cat /\
    file_refers prod "sub_category_id" sub.
Proof.
  apply (generate_products_references (World (Some ∅) [] [] [] []) ∅).
  reflexivity.
Defined.

Lemma product_file :
  to_file (products (expand get_product_hierarchy)) =
    CsvFile ["id"; "sub_category_id"; "name"; "price"]
      [[VInt 1; VInt 1; VStr "Table and chair set"; VFloat 29999];
       [VInt 2; VInt 1; VStr "Patio Heater"; VFloat 19999];
       [VInt 3; VInt 2; VStr "Curtains"; VFloat 8999];
       [VInt 4; VInt 2; VStr "Cushions"; VFloat 1999];
       [VInt 5; VInt 3; VStr "50 inch 4K TV"; VFloat 39999];
       [VInt 6; VInt 3; VStr "TV Soundbar"; VFloat 9999];
       [VInt 7; VInt 4; VStr "Portable Bluetooth Speaker"; VFloat 4999];
       [VInt 8; VInt 4; VStr "Premium Smart Speaker"; VFloat 39999];
       [VInt 9; VInt 5; VStr "Mens Jeans"; VFloat 3999];
       [VInt 10; VInt 5; VStr "Mens Shorts"; VFloat 1999];
       [VInt 11; VInt 6; VStr "Womens Jeans"; VFloat 3999];
       [VInt 12; VInt 6; VStr "Blouse"; VFloat 2499]].
Proof. vm_compute. reflexivity. Qed.

Lemma category_file_length :
  length (lines (to_file (categories (expand get_product_hierarchy)))) = 3%nat.
Proof. vm_compute. reflexivity. Qed.

Lemma sub_category_file_length :
  length (lines (to_file (sub_categories (expand get_product_hierarchy)))) = 6%nat.
Proof. vm_compute. reflexivity. Qed.

(** C8. On the static hierarchy, [generate_products] returns 12 and, in an
    existing output directory, leaves 3 category lines, 6 sub-category lines
    and 12 product lines; the product file has the columns id,
    sub_category_id, name, price, it has a line named "Table and chair set",
    and every line of that name has price 299.99 (29999 hundredths) and
    sub_category_id 1. *)
Theorem generate_products_static_hierarchy :
  forall (w : world) (dir : gmap string csv_file),
    target w = Some dir ->
    exists w' cat sub prod,
      generate_products w = (Ret 12, w') /\
      target w' =
        Some (<["product.csv" := prod]>
                (<["sub_category.csv" := sub]> (<["category.csv" := cat]> dir))) /\
      length (lines cat) = 3%nat /\
      length (lines sub) = 6%nat /\
      length (lines prod) = 12%nat /\
      header prod = ["id"; "sub_category_id"; "name"; "price"] /\
      In [VInt 1; VInt 1; VStr "Table and chair set"; VFloat 29999] (lines prod) /\
      forall l, In l (lines prod) ->
        cell prod "name" l = Some (VStr "Table and chair set") ->
        cell prod "price" l = Some (VFloat 29999) /\
        cell prod "sub_category_id" l = Some (VInt 1).
Proof.
  intros w dir Hdir. rewrite (generate_products_run w dir Hdir). cbv zeta.
  eexists. exists (to_file (categories (expand get_product_hierarchy))),
    (to_file (sub_categories (expand get_product_hierarchy))),
    (to_file (products (expand get_product_hierarchy))).
  split; [reflexivity|]. split; [reflexivity|].
  split; [exact category_file_length|].
  split; [exact sub_category_file_length|].
  rewrite product_file. cbn [lines header].
  split; [reflexivity|]. split; [reflexivity|]. split; [left; reflexivity|].
  intros l Hl Hname. cbn [In] in Hl.
  repeat (destruct Hl as [<-|Hl];
          [cbv in Hname; first [discriminate Hname | split; reflexivity]|]).
  destruct Hl.
Qed.

Lemma generate_products_static_hierarchy_witness :
  exists w' cat sub prod,
    generate_products (World (Some ∅) [] [] [] []) = (Ret 12, w') /\
    target w' =
      Some (<["product.csv" := prod]>
              (<["sub_category.csv" := sub]> (<["category.csv" := cat]> ∅))) /\
    length (lines cat) = 3%nat /\
    length (lines sub) = 6%nat /\
    length (lines prod) = 12%nat /\
    header prod = ["id"; "sub_category_id"; "name"; "price"] /\
    In [VInt 1; VInt 1; VStr "Table and chair set"; VFloat 29999] (lines prod) /\
    forall l, In l (lines prod) ->
      cell prod "name" l = Some (VStr "Table and chair set") ->
      cell prod "price" l = Some (VFloat 29999) /\
      cell prod "sub_category_id" l = Some (VInt 1).
Proof.
  apply (generate_products_static_hierarchy (World (Some ∅) [] [] [] []) ∅).
  reflexivity.
Defined.

(** ** The loops of [generate_orders] *)

Lemma ints_app l1 l2 : ints (l1 ++ l2) = ints l1 ++ ints l2.
Proof. unfold ints. apply map_app. Qed.

Lemma ints_seqZ_app m (a b : nat) :
  ints (seqZ m (Z.of_nat a)) ++ ints (seqZ (m + Z.of_nat a) (Z.of_nat b)) =
  ints (seqZ m (Z.of_nat (a + b))).
Proof. rewrite <- ints_app, Nat2Z.inj_add, seqZ_app by lia. reflexivity. Qed.

Lemma ints_seqZ_cons m (n : nat) :
  ints (seqZ m (Z.of_nat (S n))) = Some (VInt m) :: ints (seqZ (m + 1) (Z.of_nat n)).
Proof.
  rewrite seqZ_cons by lia. cbn. do 2 f_equal.
  - f_equal. lia.
Qed.

Lemma column_app k l1 l2 : column k (l1 ++ l2) = column k l1 ++ column k l2.
Proof. unfold column. apply map_app. Qed.

Section Orders.

Variables num_customers num_products num_shipping_methods num_couriers : Z.
Variables max_order_items start_datetime end_datetime max_quantity : Z.

Lemma items_loop_returns count order_id order_items order_item_id :
  returns (items_loop count order_id num_products max_quantity order_items order_item_id)
          (items_post num_products max_quantity order_id order_items order_item_id count).
Proof.
  revert order_items order_item_id.
  induction count as [|count IH]; intros order_items order_item_id; cbn [items_loop].
  - apply returns_ret. exists []. cbn. rewrite app_nil_r.
    repeat split; try reflexivity; try lia. constructor.
  - eapply returns_bind; [apply returns_random_int|]. intros p Hp. cbv beta.
    eapply returns_bind; [apply returns_random_int|]. intros q Hq. cbv beta.
    eapply returns_weaken; [apply IH|].
    intros [items id'] (new & Hfst & Hsnd & Hlen & Hcol & Hall). cbn in *.
    eexists (_ :: new). cbn [fst snd]. rewrite Hfst, <- app_assoc. cbn [app].
    split; [reflexivity|]. split; [lia|]. split; [cbn; lia|]. split.
    + unfold column in *. cbn [map get]. cbn. rewrite Hcol.
      symmetry. apply ints_seqZ_cons.
    + constructor; [|exact Hall]. exists order_item_id, p, q. auto.
Qed.

Lemma orders_loop_returns indices orders order_items order_item_id :
  returns (orders_loop indices num_customers num_products num_shipping_methods
             num_couriers max_order_items start_datetime end_datetime max_quantity
             orders order_items order_item_id)
          (orders_post num_customers num_products num_shipping_methods num_couriers
             max_quantity indices orders order_items order_item_id).
Proof.
  revert orders order_items order_item_id.
  induction indices as [|i indices IH]; intros orders order_items order_item_id;
    cbn [orders_loop].
  - apply returns_ret. exists [], []. cbn. rewrite !app_nil_r.
    repeat split; constructor.
  - cbv zeta.
    eapply returns_bind; [apply returns_date_time_between|]. intros p _. cbv beta.
    eapply returns_bind; [apply returns_random_int|]. intros d Hd. cbv beta.
    eapply returns_bind; [apply returns_datetime_add|]. intros sh ->. cbv beta.
    eapply returns_bind; [apply returns_random_int|]. intros c Hc. cbv beta.
    eapply returns_bind; [apply returns_random_int|]. intros s Hs. cbv beta.
    eapply returns_bind; [apply returns_random_int|]. intros k Hk. cbv beta.
    eapply returns_bind; [apply returns_random_int|]. intros n Hn. cbv beta.
    eapply returns_bind; [apply items_loop_returns|].
    intros [items id'] (new & Hfst & Hsnd & Hlen & Hcol & Hall). cbn [fst snd] in *.
    subst items id'.
    eapply returns_weaken; [apply IH|].
    intros [os its] (new_orders & new_items & Ho & Hi & Hoc & Hok & Hic & Hiok & Hex).
    cbn [fst snd] in *. subst os its.
    eexists (_ :: new_orders), (new ++ new_items). cbn [fst snd].
    rewrite <- !app_assoc. cbn [app].
    split; [reflexivity|]. split; [reflexivity|]. split.
    { unfold column in *. cbn [map]. rewrite Hoc. reflexivity. }
    split.
    { constructor; [|exact Hok]. exists (i + 1), c, s, k, p, d. auto 6. }
    split.
    { rewrite column_app, Hcol, Hic, length_app, Hlen. apply ints_seqZ_app. }
    split.
    { apply Forall_app. split.
      - eapply Forall_impl; [exact Hall|]. intros r Hr. exists i. split; [left; reflexivity | exact Hr].
      - eapply Forall_impl; [exact Hiok|]. intros r (j & Hj & Hr). exists j. split; [right; exact Hj | exact Hr]. }
    constructor.
    { apply Exists_app. left. destruct new as [|r new]; [cbn in Hlen; lia|].
      inversion Hall; subst. apply Exists_cons_hd. assumption. }
    eapply Forall_impl; [exact Hex|]. intros j Hj. apply Exists_app. right. exact Hj.
Qed.

End Orders.

(** ** Exceptions of the sampling code *)

Lemma raises_ret {A} (a : A) E : raises_only (ret a) E.
Proof. intros w e w' H. inversion H. Qed.

Lemma raises_raise {A} e (E : exn -> Prop) : E e -> raises_only (@raise A e) E.
Proof. intros He w e' w' H. inversion H; subst. exact He. Qed.

Lemma raises_bind {A B} (c : M A) (k : A -> M B) E :
  raises_only c E -> (forall a, raises_only (k a) E) -> raises_only (bind c k) E.
Proof.
  intros Hc Hk w e w' H. apply bind_inv in H as [(e' & H & He)|(a & w1 & H1 & H2)].
  - inversion He; subst. eapply Hc, H.
  - eapply Hk, H2.
Qed.

Lemma raises_draw E : raises_only draw E.
Proof.
  intros w e w' H. destruct (draw_total w) as (x & w1 & H1 & _).
  rewrite H1 in H. inversion H.
Qed.

Lemma raises_random_int lo hi : raises_only (random_int lo hi) sampling_error.
Proof.
  unfold random_int. destruct (hi <? lo).
  - apply raises_raise. left. reflexivity.
  - apply raises_bind; [apply raises_draw | intros; apply raises_ret].
Qed.

Lemma raises_date_time_between a b E : raises_only (date_time_between a b) E.
Proof.
  unfold date_time_between.
  apply raises_bind; [apply raises_draw | intros; apply raises_ret].
Qed.

Lemma raises_datetime_add t d : raises_only (datetime_add t d) sampling_error.
Proof.
  unfold datetime_add. cbv zeta.
  destruct (_ && _); [apply raises_ret | apply raises_raise; right; reflexivity].
Qed.

Section OrdersOutcome.

Variables num_customers num_products num_shipping_methods num_couriers : Z.
Variables max_order_items start_datetime end_datetime max_quantity : Z.

Lemma sampler_items_loop count order_id order_items order_item_id :
  sampler (items_loop count order_id num_products max_quantity order_items order_item_id).
Proof.
  revert order_items order_item_id.
  induction count as [|count IH]; intros; cbn [items_loop].
  - apply sampler_ret.
  - apply sampler_bind; [apply sampler_random_int|]. intros p.
    apply sampler_bind; [apply sampler_random_int|]. intros q. apply IH.
Qed.

Lemma raises_items_loop count order_id order_items order_item_id :
  raises_only
    (items_loop count order_id num_products max_quantity order_items order_item_id)
    sampling_error.
Proof.
  revert order_items order_item_id.
  induction count as [|count IH]; intros; cbn [items_loop].
  - apply raises_ret.
  - apply raises_bind; [apply raises_random_int|]. intros p.
    apply raises_bind; [apply raises_random_int|]. intros q. apply IH.
Qed.

Lemma succeeds_items_loop count order_id order_items order_item_id :
  1 <= num_products -> 1 <= max_quantity ->
  succeeds (items_loop count order_id num_products max_quantity order_items order_item_id).
Proof.
  intros Hp Hq. revert order_items order_item_id.
  induction count as [|count IH]; intros; cbn [items_loop].
  - apply succeeds_ret.
  - eapply succeeds_bind with (P := fun _ => True);
      [apply succeeds_random_int; lia | intros ? ? ? _; exact I |]. intros p _.
    eapply succeeds_bind with (P := fun _ => True);
      [apply succeeds_random_int; lia | intros ? ? ? _; exact I |]. intros q _.
    apply IH.
Qed.

Lemma sampler_orders_loop indices orders order_items order_item_id :
  sampler (orders_loop indices num_customers num_products num_shipping_methods
             num_couriers max_order_items start_datetime end_datetime max_quantity
             orders order_items order_item_id).
Proof.
  revert orders order_items order_item_id.
  induction indices as [|i indices IH]; intros; cbn [orders_loop].
  - apply sampler_ret.
  - cbv zeta.
    apply sampler_bind; [apply sampler_date_time_between|]. intros p.
    apply sampler_bind; [apply sampler_random_int|]. intros d.
    apply sampler_bind; [apply sampler_datetime_add|]. intros sh.
    do 4 (apply sampler_bind; [apply sampler_random_int|]; intros ?).
    apply sampler_bind; [apply sampler_items_loop|]. intros st. apply IH.
Qed.

Lemma raises_orders_loop indices orders order_items order_item_id :
  raises_only
    (orders_loop indices num_customers num_products num_shipping_methods
       num_couriers max_order_items start_datetime end_datetime max_quantity
       orders order_items order_item_id)
    sampling_error.
Proof.
  revert orders order_items order_item_id.
  induction indices as [|i indices IH]; intros; cbn [orders_loop].
  - apply raises_ret.
  - cbv zeta.
    apply raises_bind; [apply raises_date_time_between|]. intros p.
    apply raises_bind; [apply raises_random_int|]. intros d.
    apply raises_bind; [apply raises_datetime_add|]. intros sh.
    do 4 (apply raises_bind; [apply raises_random_int|]; intros ?).
    apply raises_bind; [apply raises_items_loop|]. intros st. apply IH.
Qed.

(** With every count at least 1 and a sampling window that leaves four
    days before [datetime.max], the loop never raises. *)
Lemma succeeds_orders_loop indices orders order_items order_item_id :
  1 <= num_customers -> 1 <= num_products ->
  1 <= num_shipping_methods -> 1 <= num_couriers ->
  1 <= max_order_items -> 1 <= max_quantity ->
  0 <= Z.min start_datetime end_datetime ->
  Z.max start_datetime end_datetime + timedelta 4 <= datetime_max ->
  succeeds (orders_loop indices num_customers num_products num_shipping_methods
              num_couriers max_order_items start_datetime end_datetime max_quantity
              orders order_items order_item_id).
Proof.
  intros Hc Hp Hs Hk Hn Hq Hlo Hhi. revert orders order_items order_item_id.
  induction indices as [|i indices IH]; intros; cbn [orders_loop].
  - apply succeeds_ret.
  - cbv zeta.
    eapply succeeds_bind;
      [apply succeeds_date_time_between | apply returns_date_time_between |].
    intros p Hpl. cbv beta in Hpl.
    eapply succeeds_bind; [apply succeeds_random_int; lia | apply returns_random_int |].
    intros d Hd. cbv beta in Hd.
    eapply succeeds_bind with (P := fun _ => True);
      [|intros ? ? ? _; exact I|].
    { apply succeeds_datetime_add. unfold timedelta, us_per_day in *. lia. }
    intros sh _.
    do 4 (eapply succeeds_bind with (P := fun _ => True);
          [apply succeeds_random_int; lia | intros ? ? ? _; exact I |]; intros ? _).
    eapply succeeds_bind with (P := fun _ => True);
      [apply succeeds_items_loop; lia | intros ? ? ? _; exact I |]. intros st _.
    apply IH.
Qed.

(** With an order to generate and a referenced count that is not positive,
    the loop never returns. *)
Lemma orders_loop_degenerate i indices orders order_items order_item_id :
  num_customers <= 0 \/ num_products <= 0 \/
  num_shipping_methods <= 0 \/ num_couriers <= 0 ->
  returns (orders_loop (i :: indices) num_customers num_products
             num_shipping_methods num_couriers max_order_items start_datetime
             end_datetime max_quantity orders order_items order_item_id)
          (fun _ => False).
Proof.
  intros Hdeg. cbn [orders_loop]. cbv zeta.
  eapply returns_bind; [apply returns_date_time_between|]. intros p _. cbv beta.
  eapply returns_bind; [apply returns_random_int|]. intros d Hd. cbv beta.
  eapply returns_bind; [apply returns_datetime_add|]. intros sh _. cbv beta.
  eapply returns_bind; [apply returns_random_int|]. intros c Hc. cbv beta.
  eapply returns_bind; [apply returns_random_int|]. intros s Hs. cbv beta.
  eapply returns_bind; [apply returns_random_int|]. intros k Hk. cbv beta.
  eapply returns_bind; [apply returns_random_int|]. intros n Hn. cbv beta.
  cbv beta in *. assert (Hnp : num_products <= 0) by lia.
  destruct (Z.to_nat n) as [|count] eqn:Hcount; [lia|].
  eapply returns_bind with (P := fun _ => False); [|intros ? []].
  cbn [items_loop].
  eapply returns_bind; [apply returns_random_int|]. intros q Hq. cbv beta in Hq. lia.
Qed.

End OrdersOutcome.

(** ** Writing whole tables *)

Lemma with_target_same w dir : target w = Some dir -> with_target (Some dir) w = w.
Proof. destruct w; cbn. intros ->. reflexivity. Qed.

Lemma write_to_csv_store file_name rows ks dir w :
  target w = Some dir ->
  uniform ks rows ->
  write_to_csv file_name rows w =
    (Ret tt, with_target (Some (store file_name rows dir)) w).
Proof.
  intros Hdir Hu. destruct rows as [|r0 rows].
  - cbn. rewrite (with_target_same _ _ Hdir). reflexivity.
  - apply (write_to_csv_uniform _ _ ks); [exact Hdir | discriminate | exact Hu].
Qed.

Lemma store_lookup file_name rows dir :
  rows <> [] -> store file_name rows dir !! file_name = Some (to_file rows).
Proof.
  intros Hne. destruct rows as [|r0 rows]; [congruence|].
  unfold store. apply lookup_insert_eq.
Qed.

Lemma store_lookup_ne file_name f rows dir :
  file_name <> f -> store file_name rows dir !! f = dir !! f.
Proof.
  intros Hne. destruct rows as [|r0 rows]; [reflexivity|].
  unfold store. apply lookup_insert_ne. exact Hne.
Qed.

Lemma dense_update_refl t : dense_update t t.
Proof. intros dir' ->. exists dir'. split; [reflexivity | auto]. Qed.

Lemma dense_update_trans t1 t2 t3 :
  dense_update t1 t2 -> dense_update t2 t3 -> dense_update t1 t3.
Proof.
  intros H12 H23 dir3 H3. destruct (H23 dir3 H3) as (dir2 & H2 & Hf2).
  destruct (H12 dir2 H2) as (dir1 & H1 & Hf1).
  exists dir1. split; [exact H1|]. intros f file Hl.
  destruct (Hf2 f file Hl) as [Hl2|Hd]; [apply Hf1, Hl2 | right; exact Hd].
Qed.

Lemma keeps_dense_sampler {A} (c : M A) : sampler c -> keeps_dense c.
Proof.
  intros Hc w r w' H. destruct (Hc w r w' H) as (Ht & _). rewrite Ht.
  apply dense_update_refl.
Qed.

Lemma keeps_dense_ret {A} (a : A) : keeps_dense (ret a).
Proof. apply keeps_dense_sampler, sampler_ret. Qed.

Lemma keeps_dense_record e : keeps_dense (record e).
Proof. intros w r w' H. inversion H; subst. apply dense_update_refl. Qed.

Lemma keeps_dense_bind {A B} (c : M A) (k : A -> M B) (P : A -> Prop) :
  keeps_dense c -> returns c P -> (forall a, P a -> keeps_dense (k a)) ->
  keeps_dense (bind c k).
Proof.
  intros Hc HP Hk w r w' H. apply bind_inv in H as [(e & H & _)|(a & w1 & H1 & H2)].
  - eapply Hc, H.
  - eapply dense_update_trans; [eapply Hc, H1 | eapply Hk, H2]. eapply HP, H1.
Qed.

Lemma keeps_dense_seq {A B} (c : M A) (k : A -> M B) :
  keeps_dense c -> (forall a, keeps_dense (k a)) -> keeps_dense (bind c k).
Proof.
  intros Hc Hk. apply keeps_dense_bind with (P := fun _ => True); auto.
  intros w a w' _. exact I.
Qed.

Lemma keeps_dense_traced {A} c res (body : M A) :
  keeps_dense body -> keeps_dense (traced c res body).
Proof.
  intros Hb. unfold traced.
  apply keeps_dense_seq; [apply keeps_dense_record|]. intros _.
  apply keeps_dense_seq; [exact Hb|]. intros a.
  apply keeps_dense_seq; [apply keeps_dense_record|]. intros _.
  apply keeps_dense_ret.
Qed.

Lemma keeps_dense_write file_name rows ks :
  uniform ks rows -> In "id" ks -> dense rows ->
  keeps_dense (write_to_csv file_name rows).
Proof.
  intros Hu Hin Hd w r w' H. destruct (target w) as [dir|] eqn:Hdir.
  - rewrite (write_to_csv_store _ _ ks dir w Hdir Hu) in H. inversion H; subst.
    cbn [with_target target]. intros dir' Hdir'. inversion Hdir'; subst.
    exists dir. split; [reflexivity|]. intros f file Hl.
    destruct (decide (file_name = f)) as [<-|Hne].
    + destruct rows as [|r0 rows]; [left; exact Hl|].
      rewrite store_lookup in Hl by discriminate.
      assert (Hfile : file = to_file (r0 :: rows)) by congruence.
      right. rewrite Hfile. eapply dense_to_file; eassumption.
    + rewrite store_lookup_ne in Hl by exact Hne. left. exact Hl.
  - destruct rows as [|r0 rows].
    + inversion H; subst. rewrite Hdir. apply dense_update_refl.
    + rewrite write_to_csv_absent in H by (auto; discriminate).
      inversion H; subst. rewrite Hdir. apply dense_update_refl.
Qed.

(** ** Tables of the generators *)

Lemma map_succ_seqZ m n : map (fun i => i + 1) (seqZ m n) = seqZ (m + 1) n.
Proof.
  unfold seqZ. rewrite <- !list_fmap_compose. apply list_fmap_ext.
  intros i x _. cbn. lia.
Qed.

Lemma seqZ_to_nat m n : seqZ m (Z.of_nat (Z.to_nat n)) = seqZ m n.
Proof. unfold seqZ. rewrite Nat2Z.id. reflexivity. Qed.

Lemma column_length k rows : length (column k rows) = length rows.
Proof. unfold column. apply length_map. Qed.

Lemma ints_length l : length (ints l) = length l.
Proof. unfold ints. apply length_map. Qed.

Lemma dense_of_column rows n :
  column "id" rows = ints (seqZ 1 n) -> length rows = Z.to_nat n /\ dense rows.
Proof.
  intros Hcol.
  assert (Hlen : length rows = Z.to_nat n).
  { rewrite <- (column_length "id"), Hcol, ints_length. apply length_seqZ. }
  split; [exact Hlen|]. unfold dense. rewrite Hcol, Hlen, seqZ_to_nat. reflexivity.
Qed.

Lemma order_ok_keys nc nsm ncour r : order_ok nc nsm ncour r -> keys r = order_keys.
Proof. intros (id & c & s & k & p & d & -> & _). reflexivity. Qed.

Lemma item_ok_keys np mq o r : item_ok np mq o r -> keys r = order_item_keys.
Proof. intros (id & p & q & -> & _). reflexivity. Qed.

Lemma range_elem i n : In i (range 0 n) <-> 0 <= i < n.
Proof.
  unfold range. rewrite <- list_elem_of_In, elem_of_seqZ. lia.
Qed.

(** The two tables the outer loop returns when it runs from empty tables
    over [range(0, num_orders)]. *)
Lemma orders_post_tables nc np nsm ncour mq n orders items :
  orders_post nc np nsm ncour mq (range 0 n) [] [] 1 (orders, items) ->
  column "id" orders = ints (seqZ 1 n) /\
  length orders = Z.to_nat n /\
  dense orders /\ dense items /\
  Forall (order_ok nc nsm ncour) orders /\
  Forall (fun r => exists i, 1 <= i <= n /\ item_ok np mq i r) items /\
  (forall i, 1 <= i <= n -> Exists (item_ok np mq i) items).
Proof.
  intros (new_orders & new_items & Ho & Hi & Hoc & Hok & Hic & Hiok & Hex).
  cbn in Ho, Hi. subst new_orders new_items.
  unfold range in Hoc. rewrite map_succ_seqZ, Z.sub_0_r in Hoc. cbn in Hoc.
  destruct (dense_of_column _ _ Hoc) as [Hlen Hd].
  repeat split; try assumption.
  - eapply Forall_impl; [exact Hiok|]. intros r (i & Hin & Hr).
    apply range_elem in Hin. exists (i + 1). split; [lia | exact Hr].
  - intros i Hi.
    pose proof (proj1 (List.Forall_forall _ _) Hex (i - 1)) as H. cbv beta in H.
    replace (i - 1 + 1) with i in H by lia. apply H, range_elem. lia.
Qed.

Lemma enumerated_rows_from field_name values m :
  let rows :=
    map (fun '(i, item) => [("id", VInt (i + 1)); (field_name, VStr item)])
        (zip (seqZ m (Z.of_nat (length values))) values) in
  column "id" rows = ints (seqZ (m + 1) (Z.of_nat (length values))) /\
  uniform ["id"; field_name] rows.
Proof.
  revert m. induction values as [|v values IH]; intros m.
  - split; [reflexivity | constructor].
  - cbn [length]. rewrite seqZ_cons by lia.
    replace (Z.pred (Z.of_nat (S (length values)))) with (Z.of_nat (length values)) by lia.
    destruct (IH (Z.succ m)) as [Hcol Hu]. cbn zeta in *. split.
    + rewrite ints_seqZ_cons. cbn. f_equal.
      replace (m + 1 + 1) with (Z.succ m + 1) by lia. exact Hcol.
    + constructor; [reflexivity | exact Hu].
Qed.

Lemma enumerated_rows_ok field_name values :
  dense (enumerated_rows field_name values) /\
  uniform ["id"; field_name] (enumerated_rows field_name values).
Proof.
  destruct (enumerated_rows_from field_name values 0) as [Hcol Hu].
  split; [|exact Hu]. apply (dense_of_column _ (Z.of_nat (length values))). exact Hcol.
Qed.

Lemma enumerated_rows_length field_name values :
  length (enumerated_rows field_name values) = length values.
Proof.
  destruct (enumerated_rows_from field_name values 0) as [Hcol _]. cbv zeta in Hcol.
  rewrite <- (column_length "id"). unfold enumerated_rows, enumerate.
  rewrite Hcol, ints_length, length_seqZ. lia.
Qed.

(** ** The loop of [generate_customers] *)

Lemma sampler_random_element pool : sampler (random_element pool).
Proof.
  unfold random_element.
  apply sampler_bind; [apply sampler_draw | intros; apply sampler_ret].
Qed.

Lemma succeeds_random_element pool : succeeds (random_element pool).
Proof.
  unfold random_element.
  eapply succeeds_bind with (P := fun _ => True);
    [apply succeeds_draw | intros ? ? ? _; exact I | intros; apply succeeds_ret].
Qed.

Lemma sampler_city : sampler city.
Proof. intros w r w' H. eapply sampler_random_element, H. Qed.

Lemma sampler_country : sampler country.
Proof. intros w r w' H. eapply sampler_random_element, H. Qed.

Lemma succeeds_city : succeeds city.
Proof. intros w. apply succeeds_random_element. Qed.

Lemma succeeds_country : succeeds country.
Proof. intros w. apply succeeds_random_element. Qed.

Lemma sampler_customers_loop indices customers :
  sampler (customers_loop indices customers).
Proof.
  revert customers. induction indices as [|i indices IH]; intros; cbn [customers_loop].
  - apply sampler_ret.
  - apply sampler_bind; [apply sampler_city|]. intros c.
    apply sampler_bind; [apply sampler_country|]. intros k. apply IH.
Qed.

Lemma succeeds_customers_loop indices customers :
  succeeds (customers_loop indices customers).
Proof.
  revert customers. induction indices as [|i indices IH]; intros; cbn [customers_loop].
  - apply succeeds_ret.
  - eapply succeeds_bind with (P := fun _ => True);
      [apply succeeds_city | intros ? ? ? _; exact I |]. intros c _.
    eapply succeeds_bind with (P := fun _ => True);
      [apply succeeds_country | intros ? ? ? _; exact I |]. intros k _.
    apply IH.
Qed.

Lemma customers_loop_returns indices customers :
  returns (customers_loop indices customers) (customers_post indices customers).
Proof.
  revert customers. induction indices as [|i indices IH]; intros; cbn [customers_loop].
  - apply returns_ret. exists []. rewrite app_nil_r.
    repeat split; constructor.
  - eapply returns_bind with (P := fun _ => True); [intros ? ? ? _; exact I|].
    intros c _. cbv beta.
    eapply returns_bind with (P := fun _ => True); [intros ? ? ? _; exact I|].
    intros k _. cbv beta.
    eapply returns_weaken; [apply IH|].
    intros res (new & -> & Hcol & Hu). eexists (_ :: new).
    rewrite <- app_assoc. cbn [app]. split; [reflexivity|]. split.
    + unfold column in *. cbn [map]. rewrite Hcol. reflexivity.
    + constructor; [reflexivity | exact Hu].
Qed.

Lemma customers_post_tables n customers :
  customers_post (range 0 n) [] customers ->
  length customers = Z.to_nat n /\ dense customers /\ uniform customer_keys customers.
Proof.
  intros (new & -> & Hcol & Hu). cbn [app].
  unfold range in Hcol. rewrite map_succ_seqZ, Z.sub_0_r in Hcol. cbn in Hcol.
  destruct (dense_of_column _ _ Hcol). auto.
Qed.

(** ** Every generator keeps the ids of what it writes dense *)

Lemma keeps_dense_write_list file_name field_name values :
  keeps_dense (write_list_to_csv file_name field_name values).
Proof.
  destruct (enumerated_rows_ok field_name values) as [Hd Hu].
  change (write_list_to_csv file_name field_name values)
    with (write_to_csv file_name (enumerated_rows field_name values)).
  eapply keeps_dense_write; [exact Hu | left; reflexivity | exact Hd].
Qed.

Lemma keeps_dense_generate_shipping_methods : keeps_dense generate_shipping_methods.
Proof.
  apply keeps_dense_traced, keeps_dense_seq;
    [apply keeps_dense_write_list | intros; apply keeps_dense_ret].
Qed.

Lemma keeps_dense_generate_couriers : keeps_dense generate_couriers.
Proof.
  apply keeps_dense_traced, keeps_dense_seq;
    [apply keeps_dense_write_list | intros; apply keeps_dense_ret].
Qed.

Lemma keeps_dense_generate_customers n : keeps_dense (generate_customers n).
Proof.
  apply keeps_dense_traced.
  eapply keeps_dense_bind;
    [apply keeps_dense_sampler, sampler_customers_loop
    | apply customers_loop_returns |].
  intros customers Hpost.
  destruct (customers_post_tables _ _ Hpost) as (_ & Hd & Hu).
  eapply keeps_dense_write; [exact Hu | left; reflexivity | exact Hd].
Qed.

Lemma keeps_dense_generate_products : keeps_dense generate_products.
Proof.
  apply keeps_dense_traced. cbv zeta.
  destruct (expand_ok get_product_hierarchy).
  apply keeps_dense_seq;
    [eapply keeps_dense_write; [eassumption | left; reflexivity | assumption]|].
  intros _. apply keeps_dense_seq;
    [eapply keeps_dense_write; [eassumption | left; reflexivity | assumption]|].
  intros _. apply keeps_dense_seq;
    [eapply keeps_dense_write; [eassumption | left; reflexivity | assumption]|].
  intros _. apply keeps_dense_ret.
Qed.

Lemma orders_uniform nc nsm ncour orders :
  Forall (order_ok nc nsm ncour) orders -> uniform order_keys orders.
Proof. intros H. eapply Forall_impl; [exact H|]. intros r. apply order_ok_keys. Qed.

Lemma items_uniform np mq n items :
  Forall (fun r => exists i, 1 <= i <= n /\ item_ok np mq i r) items ->
  uniform order_item_keys items.
Proof.
  intros H. eapply Forall_impl; [exact H|].
  intros r (i & _ & Hr). eapply item_ok_keys, Hr.
Qed.

Lemma keeps_dense_generate_orders nc np nsm ncour n k s e mq :
  keeps_dense (generate_orders nc np nsm ncour n k s e mq).
Proof.
  apply keeps_dense_traced.
  eapply keeps_dense_bind;
    [apply keeps_dense_sampler, sampler_orders_loop
    | apply orders_loop_returns |].
  intros [orders items] Hpost. cbn [fst snd].
  destruct (orders_post_tables _ _ _ _ _ _ _ _ Hpost)
    as (_ & _ & Hdo & Hdi & Hok & Hiok & _).
  apply keeps_dense_seq.
  - eapply keeps_dense_write;
      [eapply orders_uniform, Hok | left; reflexivity | exact Hdo].
  - intros _. eapply keeps_dense_write;
      [eapply items_uniform, Hiok | left; reflexivity | exact Hdi].
Qed.

Lemma keeps_dense_run c : keeps_dense (run c).
Proof.
  destruct c; cbn [run].
  - apply keeps_dense_seq;
      [apply keeps_dense_generate_shipping_methods | intros; apply keeps_dense_ret].
  - apply keeps_dense_seq;
      [apply keeps_dense_generate_couriers | intros; apply keeps_dense_ret].
  - apply keeps_dense_generate_customers.
  - apply keeps_dense_seq;
      [apply keeps_dense_generate_products | intros; apply keeps_dense_ret].
  - apply keeps_dense_generate_orders.
Qed.

(** C4. Whichever generator runs, with whatever arguments and from
    whatever world, and however the run ends, every file found in the
    output directory afterwards either was already there with the same
    contents, or has as its id column exactly 1, 2, ..., N, where N is the
    number of its lines.  This covers the eight tables; for the order items
    it means one counter running across all orders. *)
Theorem generated_ids_dense :
  forall (c : call) (w : world) (r : outcome unit) (w' : world)
         (dir' : gmap string csv_file) (f : string) (file : csv_file),
    run c w = (r, w') ->
    target w' = Some dir' ->
    dir' !! f = Some file ->
    (exists dir, target w = Some dir /\ dir !! f = Some file) \/ dense_ids file.
Proof.
  intros c w r w' dir' f file Hrun Hdir' Hf.
  destruct (keeps_dense_run c w r w' Hrun dir' Hdir') as (dir & Hdir & Hfiles).
  destruct (Hfiles f file Hf) as [Hold|Hd]; [left; eauto | right; exact Hd].
Qed.

Lemma generated_ids_dense_witness :
  (exists dir,
     target sample_world = Some dir /\
     dir !! "order_item.csv" =
       Some (CsvFile ["id"; "order_id"; "product_id"; "quantity"]
               [[VInt 1; VInt 1; VInt 1; VInt 2];
                [VInt 2; VInt 2; VInt 11; VInt 3];
                [VInt 3; VInt 2; VInt 3; VInt 2];
                [VInt 4; VInt 2; VInt 1; VInt 1]])) \/
  dense_ids
    (CsvFile ["id"; "order_id"; "product_id"; "quantity"]
       [[VInt 1; VInt 1; VInt 1; VInt 2];
        [VInt 2; VInt 2; VInt 11; VInt 3];
        [VInt 3; VInt 2; VInt 3; VInt 2];
        [VInt 4; VInt 2; VInt 1; VInt 1]]).
Proof.
  apply (generated_ids_dense
           (generate_orders_call 2 12 4 3 2 3 default_start_datetime
              default_end_datetime 3)
           sample_world (Ret tt)
           (snd (generate_orders 2 12 4 3 2 3 default_start_datetime
                   default_end_datetime 3 sample_world))
           (default ∅
              (target (snd (generate_orders 2 12 4 3 2 3 default_start_datetime
                              default_end_datetime 3 sample_world))))
           "order_item.csv").
  - vm_compute. reflexivity.
  - vm_compute. reflexivity.
  - vm_compute. reflexivity.
Defined.

(** ** [generate_orders] as a whole *)

Lemma range_cons n : 1 <= n -> range 0 n = 0 :: range 1 n.
Proof.
  intros Hn. unfold range. rewrite seqZ_cons by lia. f_equal. f_equal. lia.
Qed.

Lemma range_nil n : n <= 0 -> range 0 n = [].
Proof. intros Hn. unfold range, seqZ. replace (Z.to_nat (n - 0)) with O by lia. reflexivity. Qed.

Section GenerateOrders.

Variables num_customers num_products num_shipping_methods num_couriers : Z.
Variables num_orders max_order_items start_datetime end_datetime max_quantity : Z.

Local Abbreviation this_call :=
  (generate_orders_call num_customers num_products num_shipping_methods
     num_couriers num_orders max_order_items start_datetime end_datetime
     max_quantity).

Local Abbreviation loop :=
  (orders_loop (range 0 num_orders) num_customers num_products
     num_shipping_methods num_couriers max_order_items start_datetime
     end_datetime max_quantity [] [] 1).

Local Abbreviation post :=
  (orders_post num_customers num_products num_shipping_methods num_couriers
     max_quantity (range 0 num_orders) [] [] 1).

(** Once the loop has returned its two tables, the call cannot fail in an
    existing directory. *)
Lemma generate_orders_after_loop w dir orders items w1 :
  target w = Some dir ->
  loop (log (Enter this_call) w) = (Ret (orders, items), w1) ->
  post (orders, items) /\
  exists w',
    generate_orders num_customers num_products num_shipping_methods
      num_couriers num_orders max_order_items start_datetime end_datetime
      max_quantity w = (Ret tt, w') /\
    entropy w' = entropy w1 /\
    ran w w' (store "order_item.csv" items (store "order.csv" orders dir))
        [Enter this_call; Leave this_call None].
Proof.
  intros Hdir Hloop.
  assert (Hpost : post (orders, items)) by (eapply orders_loop_returns, Hloop).
  destruct (sampler_orders_loop _ _ _ _ _ _ _ _ _ _ _ _ _ _ _ Hloop)
    as (Ht & Hci & Hco & Htr).
  destruct (orders_post_tables _ _ _ _ _ _ _ _ Hpost)
    as (_ & _ & _ & _ & Hok & Hiok & _).
  split; [exact Hpost|]. eexists. split.
  - unfold generate_orders. apply traced_ret.
    rewrite (bind_ret_eq _ _ _ _ _ Hloop). cbn [fst snd].
    erewrite bind_ret_eq.
    2:{ eapply write_to_csv_store; [rewrite Ht; exact Hdir | eapply orders_uniform, Hok]. }
    eapply write_to_csv_store; [reflexivity | eapply items_uniform, Hiok].
  - unfold ran. cbn. rewrite Htr, Hci, Hco. cbn. rewrite <- app_assoc. repeat split.
Qed.

(** The ways a call of [generate_orders] in an existing directory ends. *)
Lemma generate_orders_inv w dir r w' :
  target w = Some dir ->
  generate_orders num_customers num_products num_shipping_methods num_couriers
    num_orders max_order_items start_datetime end_datetime max_quantity w = (r, w') ->
  (exists e, r = Raise e /\ sampling_error e /\ target w' = Some dir /\
             loop (log (Enter this_call) w) = (Raise e, w')) \/
  (exists orders items,
     r = Ret tt /\ post (orders, items) /\
     ran w w' (store "order_item.csv" items (store "order.csv" orders dir))
         [Enter this_call; Leave this_call None]).
Proof.
  intros Hdir Hrun.
  destruct (loop (log (Enter this_call) w)) as [[[orders items]|e] w1] eqn:Hloop.
  - destruct (generate_orders_after_loop w dir orders items w1 Hdir Hloop)
      as (Hpost & w2 & Hgen & _ & Hran).
    rewrite Hgen in Hrun. inversion Hrun; subst. right. eauto.
  - left. exists e.
    assert (Hgen : generate_orders num_customers num_products num_shipping_methods
              num_couriers num_orders max_order_items start_datetime end_datetime
              max_quantity w = (Raise e, w1)).
    { unfold generate_orders. apply traced_raise.
      apply bind_raise_eq. exact Hloop. }
    rewrite Hgen in Hrun. inversion Hrun; subst.
    destruct (sampler_orders_loop _ _ _ _ _ _ _ _ _ _ _ _ _ _ _ Hloop) as (Ht & _).
    repeat split; try reflexivity.
    + eapply raises_orders_loop, Hloop.
    + rewrite Ht. exact Hdir.
Qed.

(** Positive counts and a sampling window four days clear of
    [datetime.max]: the call returns. *)
Lemma generate_orders_succeeds w dir :
  target w = Some dir ->
  1 <= num_customers -> 1 <= num_products ->
  1 <= num_shipping_methods -> 1 <= num_couriers ->
  1 <= max_order_items -> 1 <= max_quantity ->
  0 <= Z.min start_datetime end_datetime ->
  Z.max start_datetime end_datetime + timedelta 4 <= datetime_max ->
  exists w',
    generate_orders num_customers num_products num_shipping_methods num_couriers
      num_orders max_order_items start_datetime end_datetime max_quantity w
    = (Ret tt, w').
Proof.
  intros Hdir Hc Hp Hs Hk Hn Hq Hlo Hhi.
  destruct (succeeds_orders_loop num_customers num_products num_shipping_methods
              num_couriers max_order_items start_datetime end_datetime max_quantity
              (range 0 num_orders) [] [] 1 Hc Hp Hs Hk Hn Hq Hlo Hhi
              (log (Enter this_call) w)) as ([orders items] & w1 & Hloop).
  destruct (generate_orders_after_loop w dir orders items w1 Hdir Hloop)
    as (_ & w' & Hgen & _). eauto.
Qed.

End GenerateOrders.

(** ** Orders on disk *)

Lemma lines_of_rows ks rows (Q : list value -> Prop) :
  uniform ks rows -> rows <> [] ->
  Forall (fun r => Q (to_line ks r)) rows ->
  Forall Q (lines (to_file rows)).
Proof.
  intros Hu Hne HQ. rewrite (to_file_lines _ _ Hu Hne). cbn [lines].
  unfold to_lines. apply List.Forall_map. exact HQ.
Qed.

Lemma nonempty_of_length {A} (l : list A) n : length l = Z.to_nat n -> 1 <= n -> l <> [].
Proof. intros Hlen Hn ->. cbn in Hlen. lia. Qed.

Lemma order_files_lookup orders items dir :
  orders <> [] ->
  store "order_item.csv" items (store "order.csv" orders dir) !! "order.csv"
  = Some (to_file orders).
Proof.
  intros Hne. rewrite store_lookup_ne by (apply String.eqb_neq; reflexivity).
  apply store_lookup, Hne.
Qed.

(** C6. When a call of [generate_orders] for at least one order returns in
    an existing output directory, [order.csv] holds one line per order and
    on every line the shipped timestamp is the placed timestamp plus [d]
    whole days for some [d] of 1..4: shipped is strictly later than placed,
    by at least one day and at most four. *)
Theorem orders_shipped_after_placed :
  forall (num_customers num_products num_shipping_methods num_couriers
          num_orders max_order_items start_datetime end_datetime max_quantity : Z)
         (w w' : world) (dir : gmap string csv_file),
    target w = Some dir ->
    1 <= num_orders ->
    generate_orders num_customers num_products num_shipping_methods num_couriers
      num_orders max_order_items start_datetime end_datetime max_quantity w
    = (Ret tt, w') ->
    exists dir' file,
      target w' = Some dir' /\
      dir' !! "order.csv" = Some file /\
      length (lines file) = Z.to_nat num_orders /\
      Forall (fun l => exists p sh d,
                cell file "placed_timestamp" l = Some (VDatetime p) /\
                cell file "shipped_timestamp" l = Some (VDatetime sh) /\
                1 <= d <= 4 /\
                sh = p + timedelta d /\
                p < sh /\
                timedelta 1 <= sh - p <= timedelta 4)
             (lines file).
Proof.
  intros nc np nsm ncour n k s e mq w w' dir Hdir Hn Hrun.
  destruct (generate_orders_inv _ _ _ _ _ _ _ _ _ _ _ _ _ Hdir Hrun)
    as [(x & Hx & _)|(orders & items & _ & Hpost & Ht & _)]; [discriminate|].
  destruct (orders_post_tables _ _ _ _ _ _ _ _ Hpost)
    as (_ & Hlen & _ & _ & Hok & _ & _).
  pose proof (nonempty_of_length _ _ Hlen Hn) as Hne.
  pose proof (orders_uniform _ _ _ _ Hok) as Hu.
  eexists _, (to_file orders). split; [exact Ht|].
  split; [apply order_files_lookup, Hne|].
  split; [rewrite to_file_length; exact Hlen|].
  apply (lines_of_rows order_keys); [exact Hu | exact Hne |].
  eapply Forall_impl; [exact Hok|].
  intros r (id & c & sm & co & p & d & -> & _ & _ & _ & Hd).
  rewrite (to_file_lines _ _ Hu Hne).
  exists p, (p + timedelta d), d.
  split; [reflexivity|]. split; [reflexivity|].
  unfold timedelta, us_per_day. lia.
Qed.

Lemma orders_shipped_after_placed_witness :
  exists dir' file,
    target (snd (generate_orders 2 12 4 3 2 3 default_start_datetime
                   default_end_datetime 3 sample_world)) = Some dir' /\
    dir' !! "order.csv" = Some file /\
    length (lines file) = Z.to_nat 2 /\
    Forall (fun l => exists p sh d,
              cell file "placed_timestamp" l = Some (VDatetime p) /\
              cell file "shipped_timestamp" l = Some (VDatetime sh) /\
              1 <= d <= 4 /\
              sh = p + timedelta d /\
              p < sh /\
              timedelta 1 <= sh - p <= timedelta 4)
           (lines file).
Proof.
  apply (orders_shipped_after_placed 2 12 4 3 2 3 default_start_datetime
           default_end_datetime 3 sample_world _ ∅).
  - reflexivity.
  - lia.
  - vm_compute. reflexivity.
Defined.

(** C7. When a call of [generate_orders] with [max_order_items] at least 1
    returns in an existing output directory, each id [i] of
    1..[num_orders] is an order id of [order.csv], whose id column is
    exactly 1..[num_orders], and is the [order_id] of at least one line of
    [order_item.csv]. *)
Theorem every_order_has_an_item :
  forall (num_customers num_products num_shipping_methods num_couriers
          num_orders max_order_items start_datetime end_datetime max_quantity : Z)
         (w w' : world) (dir : gmap string csv_file) (i : Z),
    1 <= max_order_items ->
    target w = Some dir ->
    generate_orders num_customers num_products num_shipping_methods num_couriers
      num_orders max_order_items start_datetime end_datetime max_quantity w
    = (Ret tt, w') ->
    1 <= i <= num_orders ->
    exists dir' orders items,
      target w' = Some dir' /\
      dir' !! "order.csv" = Some orders /\
      dir' !! "order_item.csv" = Some items /\
      file_column "id" orders = ints (seqZ 1 num_orders) /\
      In (Some (VInt i)) (file_column "id" orders) /\
      In (Some (VInt i)) (file_column "order_id" items).
Proof.
  intros nc np nsm ncour n k s e mq w w' dir i _ Hdir Hrun Hi.
  destruct (generate_orders_inv _ _ _ _ _ _ _ _ _ _ _ _ _ Hdir Hrun)
    as [(x & Hx & _)|(orders & items & _ & Hpost & Ht & _)]; [discriminate|].
  destruct (orders_post_tables _ _ _ _ _ _ _ _ Hpost)
    as (Hcol & Hlen & Hd & _ & Hok & Hiok & Hex).
  assert (Hne : orders <> []) by (apply (nonempty_of_length _ n); [exact Hlen | lia]).
  pose proof (orders_uniform _ _ _ _ Hok) as Hu.
  pose proof (items_uniform _ _ _ _ Hiok) as Hiu.
  destruct (proj1 (List.Exists_exists _ _) (Hex i Hi)) as (r & Hr & Hitem).
  assert (Hine : items <> []) by (intros ->; destruct Hr).
  eexists _, (to_file orders), (to_file items). split; [exact Ht|].
  split; [apply order_files_lookup, Hne|].
  split; [apply store_lookup, Hine|].
  rewrite (file_column_to_file order_keys) by (auto; left; reflexivity).
  rewrite (file_column_to_file order_item_keys)
    by (auto; right; left; reflexivity).
  split; [exact Hcol|]. split.
  - apply dense_has_id; [exact Hd | lia].
  - unfold column. apply in_map_iff. exists r. split; [|exact Hr].
    destruct Hitem as (id & p & q & -> & _). reflexivity.
Qed.

Lemma every_order_has_an_item_witness :
  exists dir' orders items,
    target (snd (generate_orders 2 12 4 3 2 3 default_start_datetime
                   default_end_datetime 3 sample_world)) = Some dir' /\
    dir' !! "order.csv" = Some orders /\
    dir' !! "order_item.csv" = Some items /\
    file_column "id" orders = ints (seqZ 1 2) /\
    In (Some (VInt 2)) (file_column "id" orders) /\
    In (Some (VInt 2)) (file_column "order_id" items).
Proof.
  apply (every_order_has_an_item 2 12 4 3 2 3 default_start_datetime
           default_end_datetime 3 sample_world _ ∅ 2).
  - lia.
  - reflexivity.
  - vm_compute. reflexivity.
  - lia.
Defined.

(** ** Counts that are not positive *)

(** C3, as stated, fails: with [num_orders = 0] the call is not rejected,
    it returns normally; and with [num_customers = 0] and one order to
    generate the exception comes from the random source after two cells
    of entropy were consumed, not from a check made before any sampling. *)
Lemma generate_orders_has_no_validation :
  fst (generate_orders 10 12 4 3 0 3 default_start_datetime default_end_datetime 3
         sample_world) = Ret tt /\
  fst (generate_orders 0 12 4 3 1 3 default_start_datetime default_end_datetime 3
         sample_world) = Raise ValueError /\
  entropy sample_world = 5 :: 2 :: entropy
    (snd (generate_orders 0 12 4 3 1 3 default_start_datetime default_end_datetime 3
            sample_world)).
Proof. repeat split; vm_compute; reflexivity. Qed.

(** C3, amended. A call of [generate_orders] in which one of the five
    counts is not positive never puts a row in a file: the output
    directory is left as it was.  With [num_orders <= 0] the call returns
    normally and consumes no entropy; with [num_orders >= 1] it ends in
    an exception raised by the sampling itself, [ValueError] from the
    random source or [OverflowError] from the timestamp addition. *)
Theorem generate_orders_nonpositive_count :
  forall (num_customers num_products num_shipping_methods num_couriers
          num_orders max_order_items start_datetime end_datetime max_quantity : Z)
         (w : world),
    num_customers <= 0 \/ num_products <= 0 \/ num_shipping_methods <= 0 \/
    num_couriers <= 0 \/ num_orders <= 0 ->
    exists r w',
      generate_orders num_customers num_products num_shipping_methods
        num_couriers num_orders max_order_items start_datetime end_datetime
        max_quantity w = (r, w') /\
      target w' = target w /\
      (num_orders <= 0 -> r = Ret tt /\ entropy w' = entropy w) /\
      (1 <= num_orders -> exists e, r = Raise e /\ sampling_error e).
Proof.
  intros nc np nsm ncour n k s e mq w Hdeg.
  destruct (Z_le_gt_dec n 0) as [Hn|Hn].
  - eexists _, _. split.
    + unfold generate_orders. apply traced_ret. rewrite (range_nil n Hn).
      cbn [orders_loop]. reflexivity.
    + split; [reflexivity|]. split; [intros _; split; reflexivity | lia].
  - set (c := generate_orders_call nc np nsm ncour n k s e mq).
    destruct (orders_loop (range 0 n) nc np nsm ncour k s e mq [] [] 1
                (log (Enter c) w)) as [[tables|x] w1] eqn:Hloop.
    + exfalso. rewrite range_cons in Hloop by lia.
      eapply (orders_loop_degenerate nc np nsm ncour k s e mq); [|exact Hloop]. lia.
    + exists (Raise x), w1. split.
      * unfold generate_orders. apply traced_raise. fold c.
        apply bind_raise_eq. exact Hloop.
      * destruct (sampler_orders_loop _ _ _ _ _ _ _ _ _ _ _ _ _ _ _ Hloop) as (Ht & _).
        split; [exact Ht|]. split; [lia|]. intros _. exists x.
        split; [reflexivity | eapply raises_orders_loop, Hloop].
Qed.

Lemma generate_orders_nonpositive_count_witness :
  exists r w',
    generate_orders 0 12 4 3 1 3 default_start_datetime default_end_datetime 3
      sample_world = (r, w') /\
    target w' = target sample_world /\
    (1 <= 0 -> r = Ret tt /\ entropy w' = entropy sample_world) /\
    (1 <= 1 -> exists e, r = Raise e /\ sampling_error e).
Proof.
  apply (generate_orders_nonpositive_count 0 12 4 3 1 3 default_start_datetime
           default_end_datetime 3 sample_world).
  lia.
Defined.

(** ** The generators, one call each, in an existing directory *)

Lemma ran_trans w1 w2 w3 dir2 dir3 evs2 evs3 :
  ran w1 w2 dir2 evs2 -> ran w2 w3 dir3 evs3 -> ran w1 w3 dir3 (evs2 ++ evs3).
Proof.
  intros (_ & Htr2 & Hci2 & Hco2) (Ht3 & Htr3 & Hci3 & Hco3).
  repeat split; try congruence. rewrite Htr3, Htr2, app_assoc. reflexivity.
Qed.

Lemma write_list_run c file_name field_name values w dir :
  target w = Some dir -> values <> [] ->
  exists w',
    traced c Some
      (write_list_to_csv file_name field_name values ;;;
       ret (Z.of_nat (length values))) w
    = (Ret (Z.of_nat (length values)), w') /\
    ran w w' (<[file_name := to_file (enumerated_rows field_name values)]> dir)
        [Enter c; Leave c (Some (Z.of_nat (length values)))].
Proof.
  intros Hdir Hne. destruct (enumerated_rows_ok field_name values) as [_ Hu].
  eexists. split.
  - apply traced_ret.
    change (write_list_to_csv file_name field_name values)
      with (write_to_csv file_name (enumerated_rows field_name values)).
    erewrite bind_ret_eq; [reflexivity|].
    eapply write_to_csv_uniform; [exact Hdir | | exact Hu].
    intros Hnil. apply Hne, length_zero_iff_nil.
    rewrite <- (enumerated_rows_length field_name), Hnil. reflexivity.
  - unfold ran. cbn. rewrite <- app_assoc. repeat split.
Qed.

Lemma generate_shipping_methods_run w dir :
  target w = Some dir ->
  exists w',
    generate_shipping_methods w = (Ret 4, w') /\
    ran w w' (<["shipping_method.csv" := to_file (enumerated_rows "name" methods)]> dir)
        [Enter generate_shipping_methods_call;
         Leave generate_shipping_methods_call (Some 4)].
Proof.
  intros Hdir.
  apply (write_list_run generate_shipping_methods_call "shipping_method.csv" "name"
           methods w dir Hdir).
  discriminate.
Qed.

Lemma generate_couriers_run w dir :
  target w = Some dir ->
  exists w',
    generate_couriers w = (Ret 3, w') /\
    ran w w' (<["courier.csv" := to_file (enumerated_rows "name" couriers)]> dir)
        [Enter generate_couriers_call; Leave generate_couriers_call (Some 3)].
Proof.
  intros Hdir.
  apply (write_list_run generate_couriers_call "courier.csv" "name" couriers w dir Hdir).
  discriminate.
Qed.

Lemma generate_customers_run n w dir :
  target w = Some dir ->
  exists customers w',
    generate_customers n w = (Ret tt, w') /\
    length customers = Z.to_nat n /\
    uniform customer_keys customers /\
    ran w w' (store "customer.csv" customers dir)
        [Enter (generate_customers_call n); Leave (generate_customers_call n) None].
Proof.
  intros Hdir. set (c := generate_customers_call n).
  destruct (succeeds_customers_loop (range 0 n) [] (log (Enter c) w))
    as (customers & w1 & Hloop).
  destruct (customers_post_tables n customers) as (Hlen & _ & Hu);
    [eapply customers_loop_returns, Hloop|].
  destruct (sampler_customers_loop _ _ _ _ _ Hloop) as (Ht & Hci & Hco & Htr).
  exists customers. eexists. split; [|split; [exact Hlen | split; [exact Hu|]]].
  - unfold generate_customers. apply traced_ret. fold c.
    rewrite (bind_ret_eq _ _ _ _ _ Hloop).
    eapply write_to_csv_store; [rewrite Ht; exact Hdir | exact Hu].
  - unfold ran. cbn. rewrite Htr, Hci, Hco. cbn. rewrite <- app_assoc. repeat split.
Qed.

Lemma generate_products_ran w dir :
  target w = Some dir ->
  exists w',
    generate_products w = (Ret 12, w') /\
    ran w w'
      (<["product.csv" := to_file (products (expand get_product_hierarchy))]>
         (<["sub_category.csv" := to_file (sub_categories (expand get_product_hierarchy))]>
            (<["category.csv" := to_file (categories (expand get_product_hierarchy))]>
               dir)))
      [Enter generate_products_call; Leave generate_products_call (Some 12)].
Proof.
  intros Hdir. eexists. split; [apply (generate_products_run w dir Hdir)|].
  unfold ran. cbn. rewrite <- app_assoc. repeat split.
Qed.

(** ** The orchestrator *)

Lemma main_recreates_directory w :
  main w = main_generators (with_target (Some ∅) w).
Proof.
  unfold main, bind at 1, output_path_exists.
  destruct (target w) as [dir|] eqn:Hdir.
  - unfold bind at 1, rmtree. rewrite Hdir.
    unfold bind at 1, mkdir. cbn. reflexivity.
  - unfold bind at 1, ret. unfold bind at 1, mkdir. rewrite Hdir. reflexivity.
Qed.

Lemma default_window_safe :
  0 <= Z.min default_start_datetime default_end_datetime /\
  Z.max default_start_datetime default_end_datetime + timedelta 4 <= datetime_max.
Proof. split; apply Z.leb_le; vm_compute; reflexivity. Qed.

Lemma main_generators_run w0 :
  target w0 = Some ∅ ->
  exists w' customers orders items,
    main_generators w0 = (Ret tt, w') /\
    length customers = 10%nat /\
    uniform customer_keys customers /\
    orders_post 2 12 4 3 3 (range 0 100) [] [] 1 (orders, items) /\
    ran w0 w'
      (store "order_item.csv" items
         (store "order.csv" orders
            (<["product.csv" := to_file (products (expand get_product_hierarchy))]>
               (<["sub_category.csv" :=
                    to_file (sub_categories (expand get_product_hierarchy))]>
                  (<["category.csv" :=
                       to_file (categories (expand get_product_hierarchy))]>
                     (store "customer.csv" customers
                        (<["courier.csv" := to_file (enumerated_rows "name" couriers)]>
                           (<["shipping_method.csv" :=
                                to_file (enumerated_rows "name" methods)]> ∅))))))))
      main_trace.
Proof.
  intros Hdir.
  destruct (generate_shipping_methods_run w0 ∅ Hdir) as (w1 & H1 & R1).
  destruct (generate_couriers_run w1 _ (proj1 R1)) as (w2 & H2 & R2).
  destruct (generate_customers_run 10 w2 _ (proj1 R2))
    as (customers & w3 & H3 & Hlen & Hu & R3).
  destruct (generate_products_ran w3 _ (proj1 R3)) as (w4 & H4 & R4).
  destruct default_window_safe as [Hlo Hhi].
  destruct (generate_orders_succeeds 2 12 4 3 100 3 default_start_datetime
              default_end_datetime 3 w4 _ (proj1 R4)
              ltac:(lia) ltac:(lia) ltac:(lia) ltac:(lia) ltac:(lia) ltac:(lia)
              Hlo Hhi) as (w5 & H5).
  destruct (generate_orders_inv _ _ _ _ _ _ _ _ _ _ _ _ _ (proj1 R4) H5)
    as [(x & Hx & _)|(orders & items & _ & Hpost & R5)]; [discriminate|].
  exists w5, customers, orders, items.
  split; [|split; [exact Hlen | split; [exact Hu | split; [exact Hpost|]]]].
  - unfold main_generators. cbv zeta.
    rewrite (bind_ret_eq _ _ _ _ _ H1), (bind_ret_eq _ _ _ _ _ H2),
      (bind_ret_eq _ _ _ _ _ H3), (bind_ret_eq _ _ _ _ _ H4).
    exact H5.
  - exact (ran_trans _ _ _ _ _ _ _
             (ran_trans _ _ _ _ _ _ _
                (ran_trans _ _ _ _ _ _ _ (ran_trans _ _ _ _ _ _ _ R1 R2) R3) R4) R5).
Qed.

Ltac distinct_names := apply String.eqb_neq; reflexivity.

(** C2. Every execution of [main] returns normally and makes exactly the
    calls of [main_trace]: [generate_customers] is called with 10 and
    returns [None], [generate_products] returns 12, and [generate_orders]
    receives num_customers = 2, num_products = 12, num_shipping_methods = 4,
    num_couriers = 3, num_orders = 100, max_order_items = 3, the default
    window and max_quantity = 3.  In the directory it leaves,
    [customer.csv] has 10 lines, [order.csv] has 100 lines whose
    customer_id is 1 or 2, and every quantity of [order_item.csv] lies in
    1..3. *)
Theorem main_arguments_to_generate_orders :
  forall w : world,
    exists w' dir' customers orders items,
      main w = (Ret tt, w') /\
      trace w' = trace w ++ main_trace /\
      target w' = Some dir' /\
      dir' !! "customer.csv" = Some customers /\
      length (lines customers) = 10%nat /\
      dir' !! "order.csv" = Some orders /\
      length (lines orders) = 100%nat /\
      Forall (fun l => exists c,
                cell orders "customer_id" l = Some (VInt c) /\ 1 <= c <= 2)
             (lines orders) /\
      dir' !! "order_item.csv" = Some items /\
      Forall (fun l => exists q,
                cell items "quantity" l = Some (VInt q) /\ 1 <= q <= 3)
             (lines items).
Proof.
  intros w. rewrite main_recreates_directory.
  destruct (main_generators_run (with_target (Some ∅) w) eq_refl)
    as (w' & customers & orders & items & Hmain & Hclen & Hcu & Hpost & Hran).
  destruct Hran as (Ht & Htr & _ & _).
  destruct (orders_post_tables _ _ _ _ _ _ _ _ Hpost)
    as (_ & Hlen & _ & _ & Hok & Hiok & Hex).
  assert (Hone : orders <> []) by (apply (nonempty_of_length _ 100); [exact Hlen | lia]).
  pose proof (orders_uniform _ _ _ _ Hok) as Hou.
  pose proof (items_uniform _ _ _ _ Hiok) as Hiu.
  destruct (proj1 (List.Exists_exists _ _) (Hex 1 ltac:(lia))) as (r1 & Hr1 & _).
  assert (Hine : items <> []) by (intros ->; destruct Hr1).
  assert (Hcne : customers <> []) by (intros ->; discriminate Hclen).
  eexists w', _, (to_file customers), (to_file orders), (to_file items).
  split; [exact Hmain|]. split; [exact Htr|]. split; [exact Ht|].
  split.
  { rewrite !store_lookup_ne by distinct_names.
    rewrite !lookup_insert_ne by distinct_names.
    apply store_lookup, Hcne. }
  split; [rewrite to_file_length; exact Hclen|].
  split; [apply order_files_lookup, Hone|].
  split; [rewrite to_file_length; exact Hlen|].
  split.
  { apply (lines_of_rows order_keys); [exact Hou | exact Hone |].
    eapply Forall_impl; [exact Hok|].
    intros r (id & c & sm & co & p & d & -> & Hc & _).
    rewrite (to_file_lines _ _ Hou Hone). exists c. split; [reflexivity | exact Hc]. }
  split; [apply store_lookup, Hine|].
  apply (lines_of_rows order_item_keys); [exact Hiu | exact Hine |].
  eapply Forall_impl; [exact Hiok|].
  intros r (i & _ & id & p & q & -> & _ & Hq).
  rewrite (to_file_lines _ _ Hiu Hine). exists q. split; [reflexivity | exact Hq].
Qed.

(** C1, on the sample world.  [main] runs the four generators to
    completion before it enters [generate_orders], and it passes on the
    counts of products, shipping methods and couriers; but the
    num_customers argument it passes is 2, the value of its max_quantity
    variable, although [generate_customers] was called for 10 customers:
    no call of [generate_orders] with num_customers = 10 is made. *)
Theorem main_orders_call_on_sample_world :
  fst (main sample_world) = Ret tt /\
  trace (snd (main sample_world)) = main_trace /\
  In (Enter (generate_customers_call 10)) (trace (snd (main sample_world))) /\
  In (Enter (generate_orders_call 2 12 4 3 100 3 default_start_datetime
               default_end_datetime 3))
     (trace (snd (main sample_world))) /\
  ~ In (Enter (generate_orders_call 10 12 4 3 100 3 default_start_datetime
                 default_end_datetime 3))
       (trace (snd (main sample_world))).
Proof.
  assert (Htr : trace (snd (main sample_world)) = main_trace)
    by (vm_compute; reflexivity).
  split; [vm_compute; reflexivity|]. split; [exact Htr|]. rewrite Htr.
  unfold main_trace. cbn [In].
  split; [tauto|]. split; [tauto|].
  intros H. repeat (destruct H as [H|H]; [discriminate H|]). exact H.
Qed.

(** * Further properties of the code *)

(** ** The sink on tables that are not empty *)











(** ** Enumerated lists *)




(** ** Customers *)

Lemma generate_customers_tables n w dir :
  target w = Some dir ->
  exists customers w',
    generate_customers n w = (Ret tt, w') /\
    customers_post (range 0 n) [] customers /\
    target w' = Some (store "customer.csv" customers dir).
Proof.
  intros Hdir. set (c := generate_customers_call n).
  destruct (succeeds_customers_loop (range 0 n) [] (log (Enter c) w))
    as (customers & w1 & Hloop).
  pose proof (customers_loop_returns _ _ _ _ _ Hloop) as Hpost.
  destruct (customers_post_tables n customers Hpost) as (_ & _ & Hu).
  destruct (sampler_customers_loop _ _ _ _ _ Hloop) as (Ht & _).
  exists customers. eexists. split; [|split; [exact Hpost|]].
  - unfold generate_customers. apply traced_ret. fold c.
    rewrite (bind_ret_eq _ _ _ _ _ Hloop).
    eapply write_to_csv_store; [rewrite Ht; exact Hdir | exact Hu].
  - reflexivity.
Qed.

(** X5. In an existing directory, [generate_customers n] with [n >= 1]
    never raises: it returns [None] and leaves [customer.csv] with the
    header id,city,country and exactly [n] lines, whose ids are 1..n. *)
Theorem generate_customers_file :
  forall (n : Z) (w : world) (dir : gmap string csv_file),
    target w = Some dir ->
    1 <= n ->
    exists w' file,
      generate_customers n w = (Ret tt, w') /\
      target w' = Some (<["customer.csv" := file]> dir) /\
      header file = ["id"; "city"; "country"] /\
      length (lines file) = Z.to_nat n /\
      file_column "id" file = ints (seqZ 1 n).
Proof.
  intros n w dir Hdir Hn.
  destruct (generate_customers_tables n w dir Hdir)
    as (customers & w' & Hrun & Hpost & Ht).
  destruct (customers_post_tables n customers Hpost) as (Hlen & _ & Hu).
  assert (Hne : customers <> []) by (apply (nonempty_of_length _ n); assumption).
  exists w', (to_file customers). split; [exact Hrun|].
  split; [rewrite Ht; destruct customers; [congruence | reflexivity]|].
  split; [rewrite (to_file_lines _ _ Hu Hne); reflexivity|].
  split; [rewrite to_file_length; exact Hlen|].
  rewrite (file_column_to_file customer_keys) by (auto; left; reflexivity).
  destruct Hpost as (new & -> & Hcol & _). cbn [app].
  unfold range in Hcol. rewrite map_succ_seqZ, Z.sub_0_r in Hcol. exact Hcol.
Qed.

Lemma generate_customers_file_witness :
  exists w' file,
    generate_customers 3 sample_world = (Ret tt, w') /\
    target w' = Some (<["customer.csv" := file]> ∅) /\
    header file = ["id"; "city"; "country"] /\
    length (lines file) = Z.to_nat 3 /\
    file_column "id" file = ints (seqZ 1 3).
Proof.
  apply (generate_customers_file 3 sample_world ∅); [reflexivity | lia].
Defined.

(** X6. [generate_customers n] with [n <= 0] returns [None] without
    drawing from the random source and without creating or changing any
    file, whether or not the output directory exists: no [customer.csv]
    comes out of such a call. *)
Theorem generate_customers_none :
  forall (n : Z) (w : world),
    n <= 0 ->
    exists w',
      generate_customers n w = (Ret tt, w') /\
      target w' = target w /\
      entropy w' = entropy w.
Proof.
  intros n w Hn. eexists. split.
  - unfold generate_customers. apply traced_ret. rewrite (range_nil n Hn).
    cbn [customers_loop]. reflexivity.
  - split; reflexivity.
Qed.

Lemma generate_customers_none_witness :
  exists w',
    generate_customers 0 sample_world = (Ret tt, w') /\
    target w' = target sample_world /\
    entropy w' = entropy sample_world.
Proof. apply (generate_customers_none 0 sample_world). lia. Defined.

(** ** Orders: keys, grouping, failure *)

Lemma generate_orders_loop_inv nc np nsm ncour n k s e mq w w' :
  generate_orders nc np nsm ncour n k s e mq w = (Ret tt, w') ->
  exists orders items w1,
    orders_loop (range 0 n) nc np nsm ncour k s e mq [] [] 1
      (log (Enter (generate_orders_call nc np nsm ncour n k s e mq)) w)
    = (Ret (orders, items), w1).
Proof.
  intros Hrun.
  destruct (traced_inv _ _ _ _ _ _ Hrun) as [(x & Hx & _)|(a & w1 & _ & Hbody & _)];
    [discriminate|].
  apply bind_ret_inv in Hbody as ([orders items] & w2 & Hloop & _). eauto.
Qed.

(** X7. When [generate_orders] returns, for at least one order and in an
    existing directory, every line of [order.csv] has its customer,
    shipping-method and courier ids within 1..num_customers,
    1..num_shipping_methods and 1..num_couriers, and every line of
    [order_item.csv] has an order id within 1..num_orders, a product id
    within 1..num_products and a quantity within 1..max_quantity. *)
Theorem generate_orders_foreign_keys :
  forall (num_customers num_products num_shipping_methods num_couriers
          num_orders max_order_items start_datetime end_datetime max_quantity : Z)
         (w w' : world) (dir : gmap string csv_file),
    target w = Some dir ->
    1 <= num_orders ->
    generate_orders num_customers num_products num_shipping_methods num_couriers
      num_orders max_order_items start_datetime end_datetime max_quantity w
    = (Ret tt, w') ->
    exists dir' orders items,
      target w' = Some dir' /\
      dir' !! "order.csv" = Some orders /\
      dir' !! "order_item.csv" = Some items /\
      Forall (fun l => exists c sm co,
                cell orders "customer_id" l = Some (VInt c) /\
                1 <= c <= num_customers /\
                cell orders "shipping_method_id" l = Some (VInt sm) /\
                1 <= sm <= num_shipping_methods /\
                cell orders "courier_id" l = Some (VInt co) /\
                1 <= co <= num_couriers)
             (lines orders) /\
      Forall (fun l => exists o p q,
                cell items "order_id" l = Some (VInt o) /\
                1 <= o <= num_orders /\
                cell items "product_id" l = Some (VInt p) /\
                1 <= p <= num_products /\
                cell items "quantity" l = Some (VInt q) /\
                1 <= q <= max_quantity)
             (lines items).
Proof.
  intros nc np nsm ncour n k s e mq w w' dir Hdir Hn Hrun.
  destruct (generate_orders_inv _ _ _ _ _ _ _ _ _ _ _ _ _ Hdir Hrun)
    as [(x & Hx & _)|(orders & items & _ & Hpost & Ht & _)]; [discriminate|].
  destruct (orders_post_tables _ _ _ _ _ _ _ _ Hpost)
    as (_ & Hlen & _ & _ & Hok & Hiok & Hex).
  pose proof (nonempty_of_length _ _ Hlen Hn) as Hne.
  pose proof (orders_uniform _ _ _ _ Hok) as Hu.
  pose proof (items_uniform _ _ _ _ Hiok) as Hiu.
  destruct (proj1 (List.Exists_exists _ _) (Hex 1 ltac:(lia))) as (r1 & Hr1 & _).
  assert (Hine : items <> []) by (intros ->; destruct Hr1).
  eexists _, (to_file orders), (to_file items). split; [exact Ht|].
  split; [apply order_files_lookup, Hne|].
  split; [apply store_lookup, Hine|]. split.
  - apply (lines_of_rows order_keys); [exact Hu | exact Hne |].
    eapply Forall_impl; [exact Hok|].
    intros r (id & c & sm & co & p & d & -> & Hc & Hsm & Hco & _).
    rewrite (to_file_lines _ _ Hu Hne). exists c, sm, co.
    repeat split; solve [reflexivity | lia].
  - apply (lines_of_rows order_item_keys); [exact Hiu | exact Hine |].
    eapply Forall_impl; [exact Hiok|].
    intros r (i & Hi & id & p & q & -> & Hp & Hq).
    rewrite (to_file_lines _ _ Hiu Hine). exists i, p, q.
    repeat split; solve [reflexivity | lia].
Qed.

Lemma generate_orders_foreign_keys_witness :
  exists dir' orders items,
    target (snd (generate_orders 2 12 4 3 2 3 default_start_datetime
                   default_end_datetime 3 sample_world)) = Some dir' /\
    dir' !! "order.csv" = Some orders /\
    dir' !! "order_item.csv" = Some items /\
    Forall (fun l => exists c sm co,
              cell orders "customer_id" l = Some (VInt c) /\
              1 <= c <= 2 /\
              cell orders "shipping_method_id" l = Some (VInt sm) /\
              1 <= sm <= 4 /\
              cell orders "courier_id" l = Some (VInt co) /\
              1 <= co <= 3)
           (lines orders) /\
    Forall (fun l => exists o p q,
              cell items "order_id" l = Some (VInt o) /\
              1 <= o <= 2 /\
              cell items "product_id" l = Some (VInt p) /\
              1 <= p <= 12 /\
              cell items "quantity" l = Some (VInt q) /\
              1 <= q <= 3)
           (lines items).
Proof.
  apply (generate_orders_foreign_keys 2 12 4 3 2 3 default_start_datetime
           default_end_datetime 3 sample_world _ ∅).
  - reflexivity.
  - lia.
  - vm_compute. reflexivity.
Defined.

Lemma items_order_ids np mq o items :
  Forall (item_ok np mq o) items ->
  column "order_id" items = repeat (Some (VInt o)) (length items).
Proof.
  induction 1 as [|r items (id & p & q & -> & _) _ IH]; [reflexivity|].
  unfold column in *. cbn [map length repeat]. rewrite IH. reflexivity.
Qed.

Lemma orders_loop_grouped nc np nsm ncour k s e mq (m : nat) :
  forall a orders order_items order_item_id,
    returns (orders_loop (seqZ a (Z.of_nat m)) nc np nsm ncour k s e mq
               orders order_items order_item_id)
            (fun res => exists counts,
               length counts = m /\
               Forall (fun c => 1 <= Z.of_nat c <= k) counts /\
               column "order_id" (snd res) =
                 column "order_id" order_items ++ grouped (a + 1) counts).
Proof.
  induction m as [|m IH]; intros a orders order_items order_item_id.
  - cbn [Z.of_nat]. change (seqZ a 0) with (@nil Z). cbn [orders_loop].
    apply returns_ret. exists []. cbn. rewrite app_nil_r. repeat split. constructor.
  - rewrite seqZ_cons by lia.
    replace (Z.pred (Z.of_nat (S m))) with (Z.of_nat m) by lia.
    cbn [orders_loop]. cbv zeta.
    eapply returns_bind with (P := fun _ => True); [intros ? ? ? _; exact I|].
    intros p _. cbv beta.
    eapply returns_bind with (P := fun _ => True); [intros ? ? ? _; exact I|].
    intros d _. cbv beta.
    eapply returns_bind with (P := fun _ => True); [intros ? ? ? _; exact I|].
    intros sh _. cbv beta.
    do 3 (eapply returns_bind with (P := fun _ => True);
          [intros ? ? ? _; exact I|]; intros ? _; cbv beta).
    eapply returns_bind; [apply returns_random_int|]. intros n Hn. cbv beta in Hn |- *.
    eapply returns_bind; [apply items_loop_returns|].
    intros [items id'] (new & Hfst & _ & Hlen & _ & Hall). cbn [fst snd] in *.
    subst items.
    eapply returns_weaken; [apply IH|].
    intros res (counts & Hcl & Hcs & Hcol).
    exists (Z.to_nat n :: counts). split; [cbn; lia|].
    split; [constructor; [lia | exact Hcs]|].
    rewrite Hcol, column_app, (items_order_ids _ _ _ _ Hall), Hlen, <- app_assoc.
    cbn [grouped]. replace (Z.succ a + 1) with (a + 1 + 1) by lia. reflexivity.
Qed.

Lemma grouped_length a counts k :
  Forall (fun c => 1 <= Z.of_nat c <= k) counts ->
  Z.of_nat (length counts) <= Z.of_nat (length (grouped a counts))
    <= Z.of_nat (length counts) * k.
Proof.
  intros H. revert a. induction H as [|c counts Hc _ IH]; intros a.
  - cbn. lia.
  - cbn [grouped length]. rewrite length_app, repeat_length.
    specialize (IH (a + 1)).
    rewrite Nat2Z.inj_succ, Nat2Z.inj_add, Z.mul_succ_l. lia.
Qed.

(** X8. When [generate_orders] returns, for at least one order and in an
    existing directory, the lines of [order_item.csv] come grouped by
    order, in the order of the order ids 1, 2, ..., num_orders, and each
    order owns between 1 and max_order_items consecutive lines; the file
    therefore has at least num_orders and at most
    num_orders * max_order_items lines. *)
Theorem generate_orders_items_grouped :
  forall (num_customers num_products num_shipping_methods num_couriers
          num_orders max_order_items start_datetime end_datetime max_quantity : Z)
         (w w' : world) (dir : gmap string csv_file),
    target w = Some dir ->
    1 <= num_orders ->
    generate_orders num_customers num_products num_shipping_methods num_couriers
      num_orders max_order_items start_datetime end_datetime max_quantity w
    = (Ret tt, w') ->
    exists dir' items counts,
      target w' = Some dir' /\
      dir' !! "order_item.csv" = Some items /\
      length counts = Z.to_nat num_orders /\
      Forall (fun c => 1 <= Z.of_nat c <= max_order_items) counts /\
      file_column "order_id" items = grouped 1 counts /\
      num_orders <= Z.of_nat (length (lines items)) <= num_orders * max_order_items.
Proof.
  intros nc np nsm ncour n k s e mq w w' dir Hdir Hn Hrun.
  destruct (generate_orders_loop_inv _ _ _ _ _ _ _ _ _ _ _ Hrun)
    as (orders & items & w1 & Hloop).
  destruct (generate_orders_after_loop nc np nsm ncour n k s e mq w dir orders
              items w1 Hdir Hloop) as (Hpost & w2 & Hgen & _ & Ht & _).
  rewrite Hgen in Hrun. inversion Hrun; subst w2. clear Hrun.
  destruct (orders_post_tables _ _ _ _ _ _ _ _ Hpost)
    as (_ & _ & _ & _ & _ & Hiok & Hex).
  pose proof (items_uniform _ _ _ _ Hiok) as Hiu.
  destruct (proj1 (List.Exists_exists _ _) (Hex 1 ltac:(lia))) as (r1 & Hr1 & _).
  assert (Hine : items <> []) by (intros ->; destruct Hr1).
  unfold range in Hloop. rewrite Z.sub_0_r in Hloop.
  rewrite <- (Z2Nat.id n) in Hloop at 1 by lia.
  destruct (orders_loop_grouped _ _ _ _ _ _ _ _ _ _ _ _ _ _ _ _ Hloop)
    as (counts & Hcl & Hcs & Hcol).
  cbn [snd column map app] in Hcol.
  assert (Hfile : file_column "order_id" (to_file items) = grouped 1 counts).
  { rewrite (file_column_to_file order_item_keys)
      by (auto; right; left; reflexivity). exact Hcol. }
  eexists _, (to_file items), counts. split; [exact Ht|].
  split; [apply store_lookup, Hine|]. split; [exact Hcl|]. split; [exact Hcs|].
  split; [exact Hfile|].
  pose proof (grouped_length 1 counts k Hcs) as Hb.
  rewrite <- Hfile in Hb. unfold file_column in Hb. rewrite length_map in Hb.
  rewrite Hcl, Z2Nat.id in Hb by lia. exact Hb.
Qed.

Lemma generate_orders_items_grouped_witness :
  exists dir' items counts,
    target (snd (generate_orders 2 12 4 3 2 3 default_start_datetime
                   default_end_datetime 3 sample_world)) = Some dir' /\
    dir' !! "order_item.csv" = Some items /\
    length counts = Z.to_nat 2 /\
    Forall (fun c => 1 <= Z.of_nat c <= 3) counts /\
    file_column "order_id" items = grouped 1 counts /\
    2 <= Z.of_nat (length (lines items)) <= 2 * 3.
Proof.
  apply (generate_orders_items_grouped 2 12 4 3 2 3 default_start_datetime
           default_end_datetime 3 sample_world _ ∅).
  - reflexivity.
  - lia.
  - vm_compute. reflexivity.
Defined.



Lemma write_to_csv_no_directory file_name rows w r w' :
  target w = None -> write_to_csv file_name rows w = (r, w') -> w' = w.
Proof.
  intros Hdir H. destruct rows as [|r0 rows].
  - inversion H. reflexivity.
  - rewrite write_to_csv_absent in H by (auto; discriminate). inversion H. reflexivity.
Qed.

(** X10. [generate_orders] writes all or nothing: whenever a call ends
    in an exception, the output directory is exactly as it was before the
    call, neither [order.csv] nor [order_item.csv] having been created or
    changed; and when the directory exists, the exception can only be one
    raised by the sampling, [ValueError] or [OverflowError]. *)
Theorem generate_orders_all_or_nothing :
  forall (num_customers num_products num_shipping_methods num_couriers
          num_orders max_order_items start_datetime end_datetime max_quantity : Z)
         (w w' : world) (e : exn),
    generate_orders num_customers num_products num_shipping_methods num_couriers
      num_orders max_order_items start_datetime end_datetime max_quantity w
    = (Raise e, w') ->
    target w' = target w /\
    (target w <> None -> sampling_error e).
Proof.
  intros nc np nsm ncour n k s x mq w w' e Hrun.
  destruct (target w) as [dir|] eqn:Hdir.
  - destruct (generate_orders_inv _ _ _ _ _ _ _ _ _ _ _ _ _ Hdir Hrun)
      as [(e' & He & Herr & Ht & _)|(orders & items & Hr & _)]; [|discriminate].
    inversion He; subst e'. split; [exact Ht | intros _; exact Herr].
  - split; [|congruence].
    destruct (traced_inv _ _ _ _ _ _ Hrun) as [(e' & _ & Hbody)|(a & w1 & Hr & _)];
      [|discriminate].
    apply bind_inv in Hbody as [(e2 & Hloop & _)|([orders items] & w2 & Hloop & Hw)].
    + destruct (sampler_orders_loop _ _ _ _ _ _ _ _ _ _ _ _ _ _ _ Hloop) as (Ht & _).
      rewrite Ht. exact Hdir.
    + destruct (sampler_orders_loop _ _ _ _ _ _ _ _ _ _ _ _ _ _ _ Hloop) as (Ht & _).
      assert (Hnone : target w2 = None) by (rewrite Ht; exact Hdir).
      cbn [fst snd] in Hw.
      apply bind_inv in Hw as [(e3 & Hw1 & _)|(u & w3 & Hw1 & Hw2)].
      * rewrite (write_to_csv_no_directory _ _ _ _ _ Hnone Hw1). exact Hnone.
      * pose proof (write_to_csv_no_directory _ _ _ _ _ Hnone Hw1) as ->.
        rewrite (write_to_csv_no_directory _ _ _ _ _ Hnone Hw2). exact Hnone.
Qed.

Lemma generate_orders_all_or_nothing_witness :
  target (snd (generate_orders 10 0 4 3 5 3 default_start_datetime
                 default_end_datetime 3 sample_world)) = target sample_world /\
  (target sample_world <> None -> sampling_error ValueError).
Proof.
  apply (generate_orders_all_or_nothing 10 0 4 3 5 3 default_start_datetime
           default_end_datetime 3 sample_world).
  vm_compute. reflexivity.
Defined.

(** X11. A sampling window that begins less than one day before
    [datetime.max] makes every call for at least one order end in
    [OverflowError], whatever the counts and the random source: the
    shipped timestamp of the first order cannot be represented.  Nothing
    is written. *)
Theorem generate_orders_overflow :
  forall (num_customers num_products num_shipping_methods num_couriers
          num_orders max_order_items start_datetime end_datetime max_quantity : Z)
         (w : world),
    1 <= num_orders ->
    datetime_max < Z.min start_datetime end_datetime + timedelta 1 ->
    exists w',
      generate_orders num_customers num_products num_shipping_methods
        num_couriers num_orders max_order_items start_datetime end_datetime
        max_quantity w = (Raise OverflowError, w') /\
      target w' = target w.
Proof.
  intros nc np nsm ncour n k s e mq w Hn Hlate.
  set (c := generate_orders_call nc np nsm ncour n k s e mq).
  destruct (succeeds_date_time_between s e (log (Enter c) w)) as (p & w1 & Hp).
  pose proof (returns_date_time_between s e _ _ _ Hp) as Hpb. cbv beta in Hpb.
  destruct (succeeds_random_int 1 4 ltac:(lia) w1) as (d & w2 & Hd).
  pose proof (returns_random_int 1 4 _ _ _ Hd) as Hdb. cbv beta in Hdb.
  assert (Hadd : datetime_add p (timedelta d) w2 = (Raise OverflowError, w2)).
  { unfold datetime_add. cbv zeta.
    replace (p + timedelta d <=? datetime_max) with false.
    - rewrite andb_false_r. reflexivity.
    - symmetry. apply Z.leb_gt. unfold timedelta, us_per_day in *. lia. }
  exists w2. split.
  - unfold generate_orders. apply traced_raise. fold c. apply bind_raise_eq.
    rewrite range_cons by lia. cbn [orders_loop]. cbv zeta.
    rewrite (bind_ret_eq _ _ _ _ _ Hp), (bind_ret_eq _ _ _ _ _ Hd).
    apply bind_raise_eq. exact Hadd.
  - destruct (sampler_date_time_between _ _ _ _ _ Hp) as (Ht1 & _).
    destruct (sampler_random_int _ _ _ _ _ Hd) as (Ht2 & _).
    rewrite Ht2, Ht1. reflexivity.
Qed.

Lemma generate_orders_overflow_witness :
  exists w',
    generate_orders 10 12 4 3 1 3 datetime_max datetime_max 3 sample_world
      = (Raise OverflowError, w') /\
    target w' = target sample_world.
Proof.
  apply (generate_orders_overflow 10 12 4 3 1 3 datetime_max datetime_max 3
           sample_world).
  - lia.
  - apply Z.ltb_lt. vm_compute. reflexivity.
Defined.

(** ** The complete run *)

Lemma store_nonempty file_name rows dir :
  rows <> [] -> store file_name rows dir = <[file_name := to_file rows]> dir.
Proof. intros Hne. destruct rows; [congruence | reflexivity]. Qed.

Lemma main_tables w :
  exists w' customers orders items,
    main w = (Ret tt, w') /\
    customers_post (range 0 10) [] customers /\
    orders_post 2 12 4 3 3 (range 0 100) [] [] 1 (orders, items) /\
    target w' =
      Some (store "order_item.csv" items
         (store "order.csv" orders
            (<["product.csv" := to_file (products (expand get_product_hierarchy))]>
               (<["sub_category.csv" :=
                    to_file (sub_categories (expand get_product_hierarchy))]>
                  (<["category.csv" :=
                       to_file (categories (expand get_product_hierarchy))]>
                     (store "customer.csv" customers
                        (<["courier.csv" := to_file (enumerated_rows "name" couriers)]>
                           (<["shipping_method.csv" :=
                                to_file (enumerated_rows "name" methods)]> ∅)))))))).
Proof.
  rewrite main_recreates_directory. set (w0 := with_target (Some ∅) w).
  destruct (generate_shipping_methods_run w0 ∅ eq_refl) as (w1 & H1 & R1).
  destruct (generate_couriers_run w1 _ (proj1 R1)) as (w2 & H2 & R2).
  destruct (generate_customers_tables 10 w2 _ (proj1 R2))
    as (customers & w3 & H3 & Hcpost & T3).
  destruct (generate_products_ran w3 _ T3) as (w4 & H4 & R4).
  destruct default_window_safe as [Hlo Hhi].
  destruct (generate_orders_succeeds 2 12 4 3 100 3 default_start_datetime
              default_end_datetime 3 w4 _ (proj1 R4)
              ltac:(lia) ltac:(lia) ltac:(lia) ltac:(lia) ltac:(lia) ltac:(lia)
              Hlo Hhi) as (w5 & H5).
  destruct (generate_orders_inv _ _ _ _ _ _ _ _ _ _ _ _ _ (proj1 R4) H5)
    as [(x & Hx & _)|(orders & items & _ & Hpost & R5)]; [discriminate|].
  exists w5, customers, orders, items.
  split; [|split; [exact Hcpost | split; [exact Hpost | exact (proj1 R5)]]].
  unfold main_generators. cbv zeta.
  rewrite (bind_ret_eq _ _ _ _ _ H1), (bind_ret_eq _ _ _ _ _ H2),
    (bind_ret_eq _ _ _ _ _ H3), (bind_ret_eq _ _ _ _ _ H4).
  exact H5.
Qed.

Lemma main_tables_nonempty customers orders items :
  customers_post (range 0 10) [] customers ->
  orders_post 2 12 4 3 3 (range 0 100) [] [] 1 (orders, items) ->
  customers <> [] /\ orders <> [] /\ items <> [].
Proof.
  intros Hc Hpost.
  destruct (customers_post_tables _ _ Hc) as (Hclen & _).
  destruct (orders_post_tables _ _ _ _ _ _ _ _ Hpost) as (_ & Hlen & _ & _ & _ & _ & Hex).
  destruct (proj1 (List.Exists_exists _ _) (Hex 1 ltac:(lia))) as (r1 & Hr1 & _).
  split; [apply (nonempty_of_length _ 10); [exact Hclen | lia]|].
  split; [apply (nonempty_of_length _ 100); [exact Hlen | lia]|].
  intros ->. destruct Hr1.
Qed.

(** X12. [main] never fails, whether the output directory exists or not
    and whatever it holds; afterwards the directory holds exactly the
    eight files shipping_method.csv, courier.csv, customer.csv,
    category.csv, sub_category.csv, product.csv, order.csv and
    order_item.csv: anything that was there before is gone. *)
Theorem main_output_files :
  forall w : world,
    exists w' dir',
      main w = (Ret tt, w') /\
      target w' = Some dir' /\
      forall f : string, is_Some (dir' !! f) <-> In f output_files.
Proof.
  intros w.
  destruct (main_tables w) as (w' & customers & orders & items & Hmain & Hc & Hpost & Ht).
  destruct (main_tables_nonempty _ _ _ Hc Hpost) as (Hcne & Hone & Hine).
  rewrite !store_nonempty in Ht by assumption.
  eexists w', _. split; [exact Hmain|]. split; [exact Ht|].
  intros f. rewrite !lookup_insert_is_Some, lookup_empty, is_Some_alt.
  unfold output_files. cbn [In]. split.
  - intros H. repeat (destruct H as [H|[_ H]]; [subst f; tauto|]). destruct H.
  - intros H.
    destruct (decide ("order_item.csv" = f)) as [|N1]; [left; assumption | right].
    split; [exact N1|].
    destruct (decide ("order.csv" = f)) as [|N2]; [left; assumption | right].
    split; [exact N2|].
    destruct (decide ("product.csv" = f)) as [|N3]; [left; assumption | right].
    split; [exact N3|].
    destruct (decide ("sub_category.csv" = f)) as [|N4]; [left; assumption | right].
    split; [exact N4|].
    destruct (decide ("category.csv" = f)) as [|N5]; [left; assumption | right].
    split; [exact N5|].
    destruct (decide ("customer.csv" = f)) as [|N6]; [left; assumption | right].
    split; [exact N6|].
    destruct (decide ("courier.csv" = f)) as [|N7]; [left; assumption | right].
    split; [exact N7|].
    destruct (decide ("shipping_method.csv" = f)) as [|N8]; [left; assumption | right].
    split; [exact N8|]. tauto.
Qed.

Lemma order_ok_refers nc nsm ncour r :
  order_ok nc nsm ncour r ->
  refers "customer_id" nc r /\ refers "shipping_method_id" nsm r /\
  refers "courier_id" ncour r.
Proof.
  intros (id & c & sm & co & p & d & -> & Hc & Hsm & Hco & _).
  repeat split; eexists; (split; [reflexivity | assumption]).
Qed.

(** X13. In the directory every execution of [main] leaves, no reference
    dangles: each customer_id, shipping_method_id and courier_id of
    [order.csv] is the id of a line of [customer.csv],
    [shipping_method.csv] and [courier.csv], and each order_id and
    product_id of [order_item.csv] is the id of a line of [order.csv] and
    [product.csv]. *)
Theorem main_references_resolve :
  forall w : world,
    exists w' dir' methods_file couriers_file customers products_file orders items,
      main w = (Ret tt, w') /\
      target w' = Some dir' /\
      dir' !! "shipping_method.csv" = Some methods_file /\
      dir' !! "courier.csv" = Some couriers_file /\
      dir' !! "customer.csv" = Some customers /\
      dir' !! "product.csv" = Some products_file /\
      dir' !! "order.csv" = Some orders /\
      dir' !! "order_item.csv" = Some items /\
      file_refers orders "customer_id" customers /\
      file_refers orders "shipping_method_id" methods_file /\
      file_refers orders "courier_id" couriers_file /\
      file_refers items "order_id" orders /\
      file_refers items "product_id" products_file.
Proof.
  intros w.
  destruct (main_tables w) as (w' & customers & orders & items & Hmain & Hc & Hpost & Ht).
  destruct (main_tables_nonempty _ _ _ Hc Hpost) as (Hcne & Hone & Hine).
  destruct (customers_post_tables _ _ Hc) as (Hclen & Hcd & Hcu).
  destruct (orders_post_tables _ _ _ _ _ _ _ _ Hpost)
    as (_ & Hlen & Hod & _ & Hok & Hiok & _).
  pose proof (orders_uniform _ _ _ _ Hok) as Hou.
  pose proof (items_uniform _ _ _ _ Hiok) as Hiu.
  destruct (enumerated_rows_ok "name" methods) as [Hmd Hmu].
  destruct (enumerated_rows_ok "name" couriers) as [Hkd Hku].
  destruct (expand_ok get_product_hierarchy) as [_ _ Hpd _ _ Hpu _ _].
  rewrite !store_nonempty in Ht by assumption.
  eexists w', _, _, _, _, _, _, _. split; [exact Hmain|]. split; [exact Ht|].
  split; [rewrite !lookup_insert_ne by distinct_names; apply lookup_insert_eq|].
  split; [rewrite !lookup_insert_ne by distinct_names; apply lookup_insert_eq|].
  split; [rewrite !lookup_insert_ne by distinct_names; apply lookup_insert_eq|].
  split; [rewrite !lookup_insert_ne by distinct_names; apply lookup_insert_eq|].
  split; [rewrite !lookup_insert_ne by distinct_names; apply lookup_insert_eq|].
  split; [apply lookup_insert_eq|].
  split; [|split; [|split; [|split]]].
  - eapply refers_to_file; try eassumption; try (cbn; tauto).
    eapply Forall_impl; [exact Hok|]. intros r Hr.
    apply (refers_mono _ 2); [rewrite Hclen; lia | apply (order_ok_refers _ _ _ _ Hr)].
  - eapply refers_to_file; try eassumption; try (cbn; tauto);
      [vm_compute; discriminate|].
    eapply Forall_impl; [exact Hok|]. intros r Hr.
    apply (refers_mono _ 4); [rewrite enumerated_rows_length; cbn; lia|].
    apply (order_ok_refers _ _ _ _ Hr).
  - eapply refers_to_file; try eassumption; try (cbn; tauto);
      [vm_compute; discriminate|].
    eapply Forall_impl; [exact Hok|]. intros r Hr.
    apply (refers_mono _ 3); [rewrite enumerated_rows_length; cbn; lia|].
    apply (order_ok_refers _ _ _ _ Hr).
  - eapply refers_to_file; try eassumption; try (cbn; tauto).
    eapply Forall_impl; [exact Hiok|].
    intros r (i & Hi & id & p & q & -> & _). exists i.
    split; [reflexivity | rewrite Hlen; lia].
  - eapply refers_to_file; try eassumption; try (cbn; tauto);
      [vm_compute; discriminate|].
    eapply Forall_impl; [exact Hiok|].
    intros r (i & Hi & id & p & q & -> & Hp & _). exists p.
    split; [reflexivity|].
    replace (Z.of_nat (length (products (expand get_product_hierarchy)))) with 12
      by (vm_compute; reflexivity).
    exact Hp.
Qed.

(** ** The catalogue of any hierarchy *)

Lemma grows_refl st : grows st st.
Proof. repeat split; exists []; rewrite app_nil_r; reflexivity. Qed.

Lemma grows_trans st1 st2 st3 : grows st1 st2 -> grows st2 st3 -> grows st1 st3.
Proof.
  intros ((a1 & Ha1) & (b1 & Hb1) & (c1 & Hc1)) ((a2 & Ha2) & (b2 & Hb2) & (c2 & Hc2)).
  repeat split.
  - exists (a1 ++ a2). rewrite Ha2, Ha1, app_assoc. reflexivity.
  - exists (b1 ++ b2). rewrite Hb2, Hb1, app_assoc. reflexivity.
  - exists (c1 ++ c2). rewrite Hc2, Hc1, app_assoc. reflexivity.
Qed.

Lemma grows_products st st' r : grows st st' -> In r (products st) -> In r (products st').
Proof. intros (_ & _ & c & ->) H. apply in_or_app. left. exact H. Qed.

Lemma grows_sub_categories st st' r :
  grows st st' -> In r (sub_categories st) -> In r (sub_categories st').
Proof. intros (_ & (b & ->) & _) H. apply in_or_app. left. exact H. Qed.

Lemma grows_categories st st' r :
  grows st st' -> In r (categories st) -> In r (categories st').
Proof. intros ((a & ->) & _) H. apply in_or_app. left. exact H. Qed.

Lemma product_step_grows st p : grows st (product_step st p).
Proof.
  repeat split; cbn; [exists [] | exists [] | eexists; reflexivity];
    rewrite app_nil_r; reflexivity.
Qed.

Lemma products_loop_grows ps st :
  grows st (fold_left product_step ps st) /\
  category_id (fold_left product_step ps st) = category_id st /\
  sub_category_id (fold_left product_step ps st) = sub_category_id st.
Proof.
  revert st. induction ps as [|p ps IH]; intros st.
  - split; [apply grows_refl | split; reflexivity].
  - cbn [fold_left]. destruct (IH (product_step st p)) as (Hg & Hc & Hs).
    split; [eapply grows_trans; [apply product_step_grows | exact Hg]|].
    split; [rewrite Hc | rewrite Hs]; reflexivity.
Qed.

Lemma sub_category_step_grows st entry :
  grows st (sub_category_step st entry) /\
  category_id (sub_category_step st entry) = category_id st.
Proof.
  destruct entry as [sname ps]. unfold sub_category_step.
  match goal with |- context [fold_left product_step ps ?s] => set (st1 := s) end.
  destruct (products_loop_grows ps st1) as (Hg & Hc & _). split; [|exact Hc].
  apply (grows_trans _ st1).
  - repeat split; cbn; [exists [] | eexists; reflexivity | exists []];
      rewrite ?app_nil_r; reflexivity.
  - destruct Hg as (Ha & Hb & Hcc). repeat split; assumption.
Qed.

Lemma sub_categories_loop_grows subs st :
  grows st (fold_left sub_category_step subs st) /\
  category_id (fold_left sub_category_step subs st) = category_id st.
Proof.
  revert st. induction subs as [|entry subs IH]; intros st.
  - split; [apply grows_refl | reflexivity].
  - cbn [fold_left]. destruct (IH (sub_category_step st entry)) as (Hg & Hc).
    destruct (sub_category_step_grows st entry) as (Hg1 & Hc1).
    split; [eapply grows_trans; eassumption | rewrite Hc; exact Hc1].
Qed.

Lemma category_step_grows st entry : grows st (category_step st entry).
Proof.
  destruct entry as [cname subs]. unfold category_step.
  match goal with |- context [fold_left sub_category_step subs ?s] => set (st1 := s) end.
  destruct (sub_categories_loop_grows subs st1) as (Hg & _).
  apply (grows_trans _ st1).
  - repeat split; cbn; [eexists; reflexivity | exists [] | exists []];
      rewrite ?app_nil_r; reflexivity.
  - destruct Hg as (Ha & Hb & Hcc). repeat split; assumption.
Qed.

Lemma categories_loop_grows h st : grows st (fold_left category_step h st).
Proof.
  revert st. induction h as [|entry h IH]; intros st; [apply grows_refl|].
  cbn [fold_left]. eapply grows_trans; [apply category_step_grows | apply IH].
Qed.

Lemma products_loop_files ps st p :
  In p ps ->
  exists pid,
    In [("id", VInt pid); ("sub_category_id", VInt (sub_category_id st));
        ("name", VStr (name p)); ("price", VFloat (price p))]
       (products (fold_left product_step ps st)).
Proof.
  revert st. induction ps as [|q ps IH]; intros st Hin; [destruct Hin|].
  cbn [fold_left]. destruct Hin as [->|Hin].
  - exists (product_id st).
    eapply grows_products; [apply products_loop_grows|].
    cbn. apply in_or_app. right. left. reflexivity.
  - destruct (IH (product_step st q) Hin) as (pid & Hpid). exists pid. exact Hpid.
Qed.

Lemma sub_category_step_files st sname ps :
  In [("id", VInt (sub_category_id st)); ("category_id", VInt (category_id st));
      ("name", VStr sname)]
     (sub_categories (sub_category_step st (sname, ps))) /\
  forall p, In p ps ->
    exists pid,
      In [("id", VInt pid); ("sub_category_id", VInt (sub_category_id st));
          ("name", VStr (name p)); ("price", VFloat (price p))]
         (products (sub_category_step st (sname, ps))).
Proof.
  unfold sub_category_step.
  match goal with |- context [fold_left product_step ps ?s] => set (st1 := s) end.
  split.
  - cbn [sub_categories]. eapply grows_sub_categories; [apply products_loop_grows|].
    subst st1. cbn. apply in_or_app. right. left. reflexivity.
  - intros p Hp. cbn [products]. exact (products_loop_files ps st1 p Hp).
Qed.

Lemma sub_categories_loop_files subs st sname ps :
  In (sname, ps) subs ->
  exists sid,
    In [("id", VInt sid); ("category_id", VInt (category_id st)); ("name", VStr sname)]
       (sub_categories (fold_left sub_category_step subs st)) /\
    forall p, In p ps ->
      exists pid,
        In [("id", VInt pid); ("sub_category_id", VInt sid);
            ("name", VStr (name p)); ("price", VFloat (price p))]
           (products (fold_left sub_category_step subs st)).
Proof.
  revert st. induction subs as [|entry subs IH]; intros st Hin; [destruct Hin|].
  cbn [fold_left]. destruct Hin as [->|Hin].
  - exists (sub_category_id st).
    destruct (sub_category_step_files st sname ps) as (Hs & Hp).
    destruct (sub_categories_loop_grows subs (sub_category_step st (sname, ps)))
      as (Hg & _).
    split; [eapply grows_sub_categories; eassumption|].
    intros p Hpin. destruct (Hp p Hpin) as (pid & Hpid). exists pid.
    eapply grows_products; eassumption.
  - destruct (sub_category_step_grows st entry) as (_ & Hc).
    destruct (IH (sub_category_step st entry) Hin) as (sid & Hs & Hp).
    rewrite Hc in Hs. exists sid. split; assumption.
Qed.

Lemma categories_loop_files h st cname subs sname ps :
  In (cname, subs) h -> In (sname, ps) subs ->
  exists cid sid,
    In [("id", VInt cid); ("name", VStr cname)]
       (categories (fold_left category_step h st)) /\
    In [("id", VInt sid); ("category_id", VInt cid); ("name", VStr sname)]
       (sub_categories (fold_left category_step h st)) /\
    forall p, In p ps ->
      exists pid,
        In [("id", VInt pid); ("sub_category_id", VInt sid);
            ("name", VStr (name p)); ("price", VFloat (price p))]
           (products (fold_left category_step h st)).
Proof.
  revert st. induction h as [|entry h IH]; intros st Hin Hsub; [destruct Hin|].
  cbn [fold_left]. destruct Hin as [->|Hin]; [|exact (IH _ Hin Hsub)].
  pose proof (categories_loop_grows h (category_step st (cname, subs))) as Hg.
  unfold category_step at 2 3 4.
  unfold category_step in Hg.
  match type of Hg with context [fold_left sub_category_step subs ?s] =>
    set (st1 := s) in * end.
  destruct (sub_categories_loop_files subs st1 sname ps Hsub) as (sid & Hs & Hp).
  destruct (sub_categories_loop_grows subs st1) as (Hg1 & _).
  exists (category_id st), sid. split; [|split].
  - eapply grows_categories; [exact Hg|]. cbn [categories].
    eapply grows_categories; [exact Hg1|].
    subst st1. cbn. apply in_or_app. right. left. reflexivity.
  - eapply grows_sub_categories; [exact Hg|]. exact Hs.
  - intros p Hpin. destruct (Hp p Hpin) as (pid & Hpid). exists pid.
    eapply grows_products; [exact Hg|]. exact Hpid.
Qed.

(** X14. Whatever the hierarchy, the catalogue files every entry under
    its own parent: for a sub-category of a category there are a category
    row with the category's name and a sub-category row with the
    sub-category's name whose category_id is the id of that category row;
    and for each product of that sub-category there is a product row with
    the product's name and price whose sub_category_id is the id of that
    sub-category row. *)
Theorem expand_files_under_parent :
  forall (h : hierarchy) (category_name sub_category_name : string)
         (sub_category : list (string * list Product)) (product_set : list Product),
    In (category_name, sub_category) h ->
    In (sub_category_name, product_set) sub_category ->
    exists cid sid,
      In [("id", VInt cid); ("name", VStr category_name)] (categories (expand h)) /\
      In [("id", VInt sid); ("category_id", VInt cid); ("name", VStr sub_category_name)]
         (sub_categories (expand h)) /\
      forall product, In product product_set ->
        exists pid,
          In [("id", VInt pid); ("sub_category_id", VInt sid);
              ("name", VStr (name product)); ("price", VFloat (price product))]
             (products (expand h)).
Proof.
  intros h cname sname subs ps Hc Hs. unfold expand.
  exact (categories_loop_files h _ cname subs sname ps Hc Hs).
Qed.

Lemma expand_files_under_parent_witness :
  exists cid sid,
    In [("id", VInt cid); ("name", VStr "Electronics")]
       (categories (expand get_product_hierarchy)) /\
    In [("id", VInt sid); ("category_id", VInt cid); ("name", VStr "Audio")]
       (sub_categories (expand get_product_hierarchy)) /\
    forall product,
      In product [mkProduct "Portable Bluetooth Speaker" 4999;
                  mkProduct "Premium Smart Speaker" 39999] ->
      exists pid,
        In [("id", VInt pid); ("sub_category_id", VInt sid);
            ("name", VStr (name product)); ("price", VFloat (price product))]
           (products (expand get_product_hierarchy)).
Proof.
  apply (expand_files_under_parent get_product_hierarchy "Electronics" "Audio"
           [ ("TV",
               [mkProduct "50 inch 4K TV" 39999; mkProduct "TV Soundbar" 9999]);
             ("Audio",
               [mkProduct "Portable Bluetooth Speaker" 4999;
                mkProduct "Premium Smart Speaker" 39999]) ]).
  - right. left. reflexivity.
  - right. left. reflexivity.
Defined.

Lemma strs_app l1 l2 : strs (l1 ++ l2) = strs l1 ++ strs l2.
Proof. unfold strs. apply map_app. Qed.

Lemma products_loop_names ps st :
  categories (fold_left product_step ps st) = categories st /\
  sub_categories (fold_left product_step ps st) = sub_categories st /\
  column "name" (products (fold_left product_step ps st)) =
    column "name" (products st) ++ strs (map name ps).
Proof.
  revert st. induction ps as [|p ps IH]; intros st.
  - cbn. rewrite app_nil_r. repeat split.
  - cbn [fold_left]. destruct (IH (product_step st p)) as (Hc & Hs & Hp).
    rewrite Hc, Hs, Hp. cbn [product_step categories sub_categories products].
    rewrite column_snoc, <- app_assoc. repeat split.
Qed.

Lemma sub_categories_loop_names subs st :
  categories (fold_left sub_category_step subs st) = categories st /\
  column "name" (sub_categories (fold_left sub_category_step subs st)) =
    column "name" (sub_categories st) ++ strs (map fst subs) /\
  column "name" (products (fold_left sub_category_step subs st)) =
    column "name" (products st) ++ strs (map name (concat (map snd subs))).
Proof.
  revert st. induction subs as [|[sname ps] subs IH]; intros st.
  - cbn. rewrite !app_nil_r. repeat split.
  - cbn [fold_left]. destruct (IH (sub_category_step st (sname, ps))) as (Hc & Hs & Hp).
    rewrite Hc, Hs, Hp. unfold sub_category_step.
    match goal with |- context [fold_left product_step ps ?s] => set (st1 := s) end.
    destruct (products_loop_names ps st1) as (Hc1 & Hs1 & Hp1).
    cbn [categories sub_categories products]. rewrite Hc1, Hs1, Hp1.
    subst st1. cbn [categories sub_categories products map concat fst snd].
    rewrite column_snoc, map_app, strs_app, <- !app_assoc. repeat split.
Qed.

Lemma categories_loop_names h st :
  column "name" (categories (fold_left category_step h st)) =
    column "name" (categories st) ++ strs (map fst h) /\
  column "name" (sub_categories (fold_left category_step h st)) =
    column "name" (sub_categories st) ++ strs (map fst (all_sub_categories h)) /\
  column "name" (products (fold_left category_step h st)) =
    column "name" (products st) ++ strs (map name (all_products h)).
Proof.
  revert st. induction h as [|[cname subs] h IH]; intros st.
  - cbn. rewrite !app_nil_r. repeat split.
  - cbn [fold_left]. destruct (IH (category_step st (cname, subs))) as (Hc & Hs & Hp).
    rewrite Hc, Hs, Hp. unfold category_step.
    match goal with |- context [fold_left sub_category_step subs ?s] => set (st1 := s) end.
    destruct (sub_categories_loop_names subs st1) as (Hc1 & Hs1 & Hp1).
    cbn [categories sub_categories products]. rewrite Hc1, Hs1, Hp1.
    subst st1. unfold all_products, all_sub_categories.
    cbn [categories sub_categories products map concat fst snd].
    rewrite column_snoc, !map_app, !concat_app, !map_app, !strs_app, <- !app_assoc.
    repeat split.
Qed.

(** X15. Whatever the hierarchy, the three tables list its categories,
    its sub-categories and its products by name, each exactly once and in
    the order the hierarchy gives them (categories first to last, their
    sub-categories in turn, the products of each in turn); with the dense
    ids this makes the n-th product of the hierarchy the row with id n.
    The product table has as many rows as the hierarchy has products. *)
Theorem expand_lists_hierarchy_in_order :
  forall h : hierarchy,
    column "name" (categories (expand h)) = strs (map fst h) /\
    column "name" (sub_categories (expand h)) = strs (map fst (all_sub_categories h)) /\
    column "name" (products (expand h)) = strs (map name (all_products h)) /\
    column "id" (products (expand h)) =
      ints (seqZ 1 (Z.of_nat (length (all_products h)))) /\
    length (products (expand h)) = length (all_products h).
Proof.
  intros h. destruct (categories_loop_names h (Catalog 1 1 1 [] [] []))
    as (Hc & Hs & Hp). cbn [categories sub_categories products column map app] in *.
  fold (expand h) in Hc, Hs, Hp.
  assert (Hlen : length (products (expand h)) = length (all_products h)).
  { rewrite <- (column_length "name"), Hp. unfold strs. rewrite !length_map. reflexivity. }
  repeat split; try assumption.
  destruct (expand_ok h) as [_ _ Hd _ _ _ _ _]. rewrite <- Hlen. exact Hd.
Qed.

(** ** Without an output directory *)

(** X16. Called while the output directory does not exist, each of
    [generate_shipping_methods], [generate_couriers], [generate_products]
    and, for at least one customer, [generate_customers] ends in
    [FileNotFoundError] and returns no count; the directory still does
    not exist afterwards. *)
Theorem generators_need_the_directory :
  forall (w : world) (n : Z),
    target w = None ->
    1 <= n ->
    (exists w', generate_shipping_methods w = (Raise FileNotFoundError, w') /\
                target w' = None) /\
    (exists w', generate_couriers w = (Raise FileNotFoundError, w') /\
                target w' = None) /\
    (exists w', generate_products w = (Raise FileNotFoundError, w') /\
                target w' = None) /\
    (exists w', generate_customers n w = (Raise FileNotFoundError, w') /\
                target w' = None).
Proof.
  intros w n Hdir Hn. repeat split.
  - eexists. split.
    + unfold generate_shipping_methods. apply traced_raise. apply bind_raise_eq.
      apply write_to_csv_absent; [exact Hdir | vm_compute; discriminate].
    + exact Hdir.
  - eexists. split.
    + unfold generate_couriers. apply traced_raise. apply bind_raise_eq.
      apply write_to_csv_absent; [exact Hdir | vm_compute; discriminate].
    + exact Hdir.
  - eexists. split.
    + unfold generate_products. apply traced_raise. cbv zeta. apply bind_raise_eq.
      apply write_to_csv_absent; [exact Hdir | vm_compute; discriminate].
    + exact Hdir.
  - set (c := generate_customers_call n).
    destruct (succeeds_customers_loop (range 0 n) [] (log (Enter c) w))
      as (customers & w1 & Hloop).
    destruct (customers_post_tables n customers) as (Hlen & _);
      [eapply customers_loop_returns, Hloop|].
    destruct (sampler_customers_loop _ _ _ _ _ Hloop) as (Ht & _).
    assert (Hnone : target w1 = None) by (rewrite Ht; exact Hdir).
    exists w1. split; [|exact Hnone].
    unfold generate_customers. apply traced_raise. fold c.
    rewrite (bind_ret_eq _ _ _ _ _ Hloop).
    apply write_to_csv_absent; [exact Hnone|].
    apply (nonempty_of_length _ n); assumption.
Qed.

Lemma generators_need_the_directory_witness :
  (exists w', generate_shipping_methods (World None [3; 1] ["Paris"] ["France"] [])
                = (Raise FileNotFoundError, w') /\ target w' = None) /\
  (exists w', generate_couriers (World None [3; 1] ["Paris"] ["France"] [])
                = (Raise FileNotFoundError, w') /\ target w' = None) /\
  (exists w', generate_products (World None [3; 1] ["Paris"] ["France"] [])
                = (Raise FileNotFoundError, w') /\ target w' = None) /\
  (exists w', generate_customers 2 (World None [3; 1] ["Paris"] ["France"] [])
                = (Raise FileNotFoundError, w') /\ target w' = None).
Proof.
  apply (generators_need_the_directory (World None [3; 1] ["Paris"] ["France"] []) 2).
  - reflexivity.
  - lia.
Defined.
